(** * ORCA6 batch creation tools: chunking, selection and materialisation

    A shallow embedding of [orca6-batch-create.py] (module [Create]) and
    [orca6-batch-prune-create.py] (module [PruneCreate]).

    Python integers are [Z]; [str] values are [string]; lists are [list].
    A [pathlib.Path] is the list of its components.  The file system is a
    finite map from paths to nodes; the two [main] functions run in a
    state-and-exception monad over it.  What [argparse] returns is the
    input of [main]; the parsing itself is not modelled.  The [while] loop
    of [select_indices] is a function by well-founded recursion. *)

From Stdlib Require Import ZArith List String Ascii Lia.
From Equations Require Import Equations.
From stdpp Require Import base numbers list list_numbers sorting gmap strings pretty.

Local Open Scope Z_scope.

(** ** The Python fragment the tools rely on *)

Module Py.

Definition path := list string.

(** Exceptions that the modelled code can raise. *)
Inductive exn :=
| ZeroDivisionError
| ValueError (msg : string)
| RuntimeError (msg : string) (p : path)
| FileExistsError (p : path)
| FileNotFoundError (p : path)
| NotADirectoryError (p : path)
| IsADirectoryError (p : path)
| IndexError.

Inductive result (A : Type) :=
| Ok (a : A)
| Raise (e : exn).
Global Arguments Ok {A} a.
Global Arguments Raise {A} e.

(** [len(l)] *)
Definition len {A} (l : list A) : Z := Z.of_nat (length l).

(** [a // b]: floor division, [ZeroDivisionError] on a zero divisor. *)
Definition floordiv (a b : Z) : result Z :=
  if b =? 0 then Raise ZeroDivisionError else Ok (a / b).

(** Number of elements of [range(start, stop, step)], [step <> 0]. *)
Definition range_len (start stop step : Z) : Z :=
  if 0 <? step then
    if start <? stop then (stop - start - 1) / step + 1 else 0
  else
    if stop <? start then (start - stop - 1) / (- step) + 1 else 0.

(** [range(start, stop, step)] for [step <> 0].  ([step = 0] raises
    [ValueError] in Python; no call below reaches it: tool 1 fails at the
    division before, tool 2 returns early.) *)
Definition range3 (start stop step : Z) : list Z :=
  (λ k : nat, start + Z.of_nat k * step) <$> seq 0 (Z.to_nat (range_len start stop step)).

(** [range(stop)] *)
Definition range1 (stop : Z) : list Z := range3 0 stop 1.

(** Normalisation of one slice bound against the length. *)
Definition slice_index (length i : Z) : Z :=
  if i <? 0 then Z.max (i + length) 0 else Z.min i length.

(** [l[i:j]] *)
Definition slice {A} (l : list A) (i j : Z) : list A :=
  let lo := slice_index (len l) i in
  let hi := slice_index (len l) j in
  take (Z.to_nat (hi - lo)) (drop (Z.to_nat lo) l).

(** [sorted(set(l))] on integers. *)
Definition sorted_set (l : list Z) : list Z := merge_sort Z.le (remove_dups l).

(** [sep.join(l)] *)
Fixpoint join (sep : string) (l : list string) : string :=
  match l with
  | [] => EmptyString
  | [x] => x
  | x :: rest => x +:+ sep +:+ join sep rest
  end.

(** [str(i)] on integers. *)
Definition str (i : Z) : string := pretty i.

(** [enumerate(l, start)] *)
Fixpoint enumerate {A} (l : list A) (start : Z) : list (Z * A) :=
  match l with
  | [] => []
  | x :: rest => (start, x) :: enumerate rest (start + 1)
  end.

(** [l[i]] with Python's negative indices and [IndexError]. *)
Definition getitem {A} (l : list A) (i : Z) : result A :=
  let k := if i <? 0 then i + len l else i in
  if k <? 0 then Raise IndexError
  else match l !! Z.to_nat k with
       | Some x => Ok x
       | None => Raise IndexError
       end.

(** Library functions of Python that the tools call on text and that
    are kept abstract: [pathlib.Path(s)], as the components of the path
    that [s] spells, and [s.splitlines()]. *)
Class Builtins := {
  Path : string → path;
  splitlines : string → list string
}.

End Py.

Import Py.

(** ** The file system *)

Module FS.

(** A regular file holds the text that reading it yields (decoded as
    UTF-8, or as Latin-1 when that fails: both tools read every file this
    way) and its permission bits once [chmod] has set them ([None]: the
    bits the file was created with).  Symbolic links, permissions of
    directories and access rights are not modelled. *)
Inductive node :=
| File (content : string) (mode : option Z)
| Dir.

(** The tree maps the paths that exist to their nodes.  The empty path
    is the working directory; it always exists. *)
Abbreviation tree := (gmap path node).

Definition lookup (t : tree) (p : path) : option node :=
  match p with
  | [] => Some Dir
  | _ => t !! p
  end.

(** [p.exists()], [p.is_file()], [p.is_dir()] *)
Definition exists_ (t : tree) (p : path) : bool :=
  match lookup t p with Some _ => true | None => false end.

Definition is_file (t : tree) (p : path) : bool :=
  match lookup t p with Some (File _ _) => true | _ => false end.

Definition is_dir (t : tree) (p : path) : bool :=
  match lookup t p with Some Dir => true | _ => false end.

(** [p.parent] *)
Definition parent (p : path) : path := removelast p.

Definition is_child (d q : path) : Prop := q ≠ [] ∧ parent q = d.

(** [any(d.iterdir())]: the directory has an entry. *)
Definition has_entries (t : tree) (d : path) : bool :=
  bool_decide (map_Exists (λ q _, is_child d q) t).

(** [p.mkdir(parents=True, exist_ok=True)]: walk down from the working
    directory, creating what is missing; a regular file on the way is an
    error ([FileExistsError] when it is [p] itself). *)
Fixpoint mkdir_walk (t : tree) (cur : path) (todo : list string) (target : path)
    : result tree :=
  match todo with
  | [] => Ok t
  | c :: rest =>
      let cur' := cur ++ [c] in
      match t !! cur' with
      | Some Dir => mkdir_walk t cur' rest target
      | Some (File _ _) =>
          Raise (match rest with
                 | [] => FileExistsError target
                 | _ => NotADirectoryError target
                 end)
      | None => mkdir_walk (<[cur' := Dir]> t) cur' rest target
      end
  end.

Definition mkdir_parents (t : tree) (p : path) : result tree :=
  mkdir_walk t [] p p.

(** [p.write_text(content)]: the parent must be a directory and [p] not
    one; an existing file keeps its permission bits. *)
Definition write_text (t : tree) (p : path) (content : string) : result tree :=
  match lookup t p with
  | Some Dir => Raise (IsADirectoryError p)
  | Some (File _ mode) => Ok (<[p := File content mode]> t)
  | None =>
      match lookup t (parent p) with
      | Some Dir => Ok (<[p := File content None]> t)
      | Some (File _ _) => Raise (NotADirectoryError p)
      | None => Raise (FileNotFoundError p)
      end
  end.

(** [os.chmod(p, mode)] *)
Definition chmod (t : tree) (p : path) (mode : Z) : result tree :=
  match lookup t p with
  | Some (File content _) => Ok (<[p := File content (Some mode)]> t)
  | Some Dir => Ok t
  | None => Raise (FileNotFoundError p)
  end.

(** [p.read_text(...)], with the fallback of the encoding folded in. *)
Definition read_text (t : tree) (p : path) : result string :=
  match lookup t p with
  | Some (File content _) => Ok content
  | Some Dir => Raise (IsADirectoryError p)
  | None => Raise (FileNotFoundError p)
  end.

End FS.

(** ** The process: file system, output streams, exceptions *)

Module Proc.

(** A printed line: its format and the values it interpolates. *)
Inductive message :=
| ErrGeometryNotFound (p : path)
| ErrLinesPerGeometry
| ErrFirst
| ErrPrune
| ErrValue (msg : string)
| ErrDirNotEmpty (subdir : path)
| WarnRemainder (total_lines n remainder : Z)
| WarnIgnoring (remainder_lines : Z)
| NothingToDo
| SelectionEmpty
| Found (total_chunks n : Z)
| OutputRoot (out_root : path)
| DryRunFolder (subdir : path)
| DryRunWrite (p : path) (size : Z)
| DryRunWriteExecutable (p : path)
| Done
| DoneCreated (folders total : Z).

Record world := World {
  files : FS.tree;
  stdout : list message;
  stderr : list message
}.

(** Computations: the world goes in; a value or an exception comes out
    with the world as it is then. *)
Definition M (A : Type) : Type := world → result A * world.

Definition ret {A} (a : A) : M A := λ w, (Ok a, w).

Definition bind {A B} (m : M A) (k : A → M B) : M B :=
  λ w, match m w with
       | (Ok a, w') => k a w'
       | (Raise e, w') => (Raise e, w')
       end.

Global Instance M_ret : MRet M := @ret.
Global Instance M_bind : MBind M := λ A B k m, bind m k.

Definition raise {A} (e : exn) : M A := λ w, (Raise e, w).

(** An inspection of the file system. *)
Definition query {A} (f : FS.tree → A) : M A := λ w, (Ok (f (files w)), w).

(** An operation on the file system; nothing changes when it fails. *)
Definition update (f : FS.tree → result FS.tree) : M unit :=
  λ w, match f (files w) with
       | Ok t => (Ok tt, World t (stdout w) (stderr w))
       | Raise e => (Raise e, w)
       end.

(** An inspection that may raise. *)
Definition inspect {A} (f : FS.tree → result A) : M A := λ w, (f (files w), w).

(** A pure computation that may raise. *)
Definition lift {A} (r : result A) : M A := λ w, (r, w).

Definition print (m : message) : M unit :=
  λ w, (Ok tt, World (files w) (stdout w ++ [m]) (stderr w)).

Definition print_err (m : message) : M unit :=
  λ w, (Ok tt, World (files w) (stdout w) (stderr w ++ [m])).

(** [for x in l: body(x)] *)
Fixpoint for_each {A} (l : list A) (body : A → M unit) : M unit :=
  match l with
  | [] => ret tt
  | x :: rest => body x;; for_each rest body
  end.

(** The same for a body that may [return] from the enclosing function:
    [Some c] is [return c], [None] falls through to the next round. *)
Fixpoint for_each_return {A R} (l : list A) (body : A → M (option R)) : M (option R) :=
  match l with
  | [] => ret None
  | x :: rest =>
      bind (body x) (λ r,
      match r with
      | Some c => ret (Some c)
      | None => for_each_return rest body
      end)
  end.

(** How the interpreter ends: [sys.exit(main())] with the returned code,
    or a traceback for an exception that nothing caught. *)
Inductive termination :=
| Exit (code : Z)
| Traceback (e : exn).

(** The exit status the shell sees. *)
Definition exit_status (t : termination) : Z :=
  match t with
  | Exit code => code
  | Traceback _ => 1
  end.

Definition sys_exit (main : M Z) (w : world) : termination * world :=
  match main w with
  | (Ok code, w') => (Exit code, w')
  | (Raise e, w') => (Traceback e, w')
  end.

End Proc.

Import Proc.

Notation "'let*' x := m 'in' k" := (bind m (λ x, k))
  (at level 10, x name, m at level 100, k at level 200).

(** ** Text constants *)

Module Text.

(** Line feed, double quote, and two sequences outside ASCII, written as
    the bytes of their UTF-8 encoding. *)
Definition nl : string := String "010" EmptyString.
Definition dq : string := String "034" EmptyString.
Definition em_dash : string := String "226" (String "128" (String "148" EmptyString)).
Definition mojibake_dash : string :=
  String "195" (String "162" (String "226" (String "130" (String "172"
    (String "226" (String "128" (String "157" EmptyString))))))).

Definition quoted (s : string) : string := dq +:+ s +:+ dq.

(** The permission bits [0o755]. *)
Definition rwxr_xr_x : Z := 7 * 64 + 5 * 8 + 5.

(** The lines of a text, each one closed by a line feed. *)
Definition unlines (l : list string) : string :=
  foldr (λ line rest, line +:+ nl +:+ rest) EmptyString l.

End Text.

Import Text.

(** ** [orca6-batch-create.py] *)

Module Create.

Record args := Args {
  geometry_list : string;
  lines_per_geometry : Z;
  orca_input : string;
  slurm_input : string;
  out : string;
  force : bool;
  dry_run : bool
}.

Definition chunk_lines (lines : list string) (n : Z) : result (list (list string)) :=
  match floordiv (len lines) n with
  | Raise e => Raise e
  | Ok q => Ok ((λ i, slice lines i (i + n)) <$> range3 0 (q * n) n)
  end.

Definition write_file (p : path) (content : string) (make_executable : bool) : M unit :=
  update (λ t, FS.write_text t p content);;
  if make_executable then update (λ t, FS.chmod t p rwxr_xr_x) else mret tt.

Definition build_cleanup_script : string :=
  unlines [
    "#!/usr/bin/env bash";
    "# cleanup.sh " +:+ em_dash +:+ " remove common ORCA scratch/intermediate files safely.";
    "# Adjust patterns as needed; by default we keep *.out, *.xyz, *.gbw.";
    EmptyString;
    "set -euo pipefail";
    EmptyString;
    "# Patterns that are generally safe to delete (review for your case):";
    "patterns=(";
    "  " +:+ quoted "*.tmp";
    "  " +:+ quoted "*.trj";
    "  " +:+ quoted "*.pc_*.xyz";
    "  " +:+ quoted "*.engrad";
    "  " +:+ quoted "*.hess";
    "  " +:+ quoted "*.molden.input";
    "  " +:+ quoted "*.mdci";
    "  " +:+ quoted "*.mdprop";
    "  " +:+ quoted "orca.*";
    "  " +:+ quoted "scratch";
    "  " +:+ quoted "tmp";
    ")";
    EmptyString;
    "shopt -s nullglob";
    "for p in " +:+ quoted "${patterns[@]}" +:+ "; do";
    "  rm -rf $p";
    "done";
    EmptyString;
    "echo " +:+ quoted "Cleanup done."
  ].

Definition ensure_dir (p : path) (force : bool) : M unit :=
  let* present := query (λ t, FS.exists_ t p) in
  if negb present then update (λ t, FS.mkdir_parents t p)
  else
    let* is_dir := query (λ t, FS.is_dir t p) in
    if negb is_dir then
      raise (RuntimeError "Path exists and is not a directory: {path}" p)
    else
      let* occupied := query (λ t, FS.has_entries t p) in
      if occupied then
        if negb force then
          raise (RuntimeError
                   "Directory {path} already exists and is not empty. Use --force to allow reuse." p)
        else mret tt
      else mret tt.

Section Tool.

Context {B : Builtins}.

Definition read_arg_text_or_file (value : string) : M string :=
  let p := Path value in
  let* is_file := query (λ t, FS.is_file t p) in
  if is_file then inspect (λ t, FS.read_text t p) else mret value.

(** One round of the [for] loop of [main]. *)
Definition loop_body (a : args) (out_root : path)
    (orca_text slurm_text cleanup_text : string) (idx : Z) (chunk : list string) : M unit :=
  let subdir := out_root ++ [str idx] in
  (if dry_run a then print (DryRunFolder subdir)
   else ensure_dir subdir (force a));;
  let geom_content := join nl chunk +:+ nl in
  let geom_path := subdir ++ ["geometry.xyz"] in
  let orca_path := subdir ++ ["orca6.inp"] in
  let slurm_path := subdir ++ ["job.slurm"] in
  let cleanup_path := subdir ++ ["cleanup.sh"] in
  if dry_run a then
    print (DryRunWrite geom_path (len chunk));;
    print (DryRunWrite orca_path (Z.of_nat (String.length orca_text)));;
    print (DryRunWrite slurm_path (Z.of_nat (String.length slurm_text)));;
    print (DryRunWriteExecutable cleanup_path)
  else
    write_file geom_path geom_content false;;
    write_file orca_path orca_text false;;
    write_file slurm_path slurm_text false;;
    write_file cleanup_path cleanup_text true.

Definition main (a : args) : M Z :=
  let geom_list_path := Path (geometry_list a) in
  let* is_file := query (λ t, FS.is_file t geom_list_path) in
  if negb is_file then
    print_err (ErrGeometryNotFound geom_list_path);; mret 2
  else if lines_per_geometry a <=? 0 then
    print_err ErrLinesPerGeometry;; mret 2
  else
    let out_root := Path (out a) in
    update (λ t, FS.mkdir_parents t out_root);;
    let* raw := inspect (λ t, FS.read_text t geom_list_path) in
    let lines := splitlines raw in
    let n := lines_per_geometry a in
    let* chunks := lift (chunk_lines lines n) in
    let total_lines := len lines in
    let total_chunks := len chunks in
    let remainder := total_lines - total_chunks * n in
    (if remainder =? 0 then mret tt
     else print_err (WarnRemainder total_lines n remainder));;
    let* orca_text := read_arg_text_or_file (orca_input a) in
    let* slurm_text := read_arg_text_or_file (slurm_input a) in
    let cleanup_text := build_cleanup_script in
    if total_chunks =? 0 then
      print_err NothingToDo;; mret 0
    else
      print (Found total_chunks n);;
      print (OutputRoot out_root);;
      for_each (enumerate chunks 1)
        (λ '(idx, chunk),
           loop_body a out_root orca_text slurm_text cleanup_text idx chunk);;
      print Done;;
      mret 0.

(** [sys.exit(main())] *)
Definition script (a : args) (w : world) : termination * world :=
  sys_exit (main a) w.

End Tool.

End Create.

(** ** [orca6-batch-prune-create.py] *)

Module PruneCreate.

Record args := Args {
  geometry_list : string;
  lines_per_geometry : Z;
  orca_input : string;
  slurm_input : string;
  first : Z;
  prune : option Z
}.

Definition chunk_lines (lines : list string) (n : Z) : list (list string) :=
  if n <=? 0 then []
  else
    let usable := (len lines / n) * n in
    (λ i, slice lines i (i + n)) <$> range3 0 usable n.

Definition write_file (p : path) (content : string) (make_executable : bool) : M unit :=
  update (λ t, FS.mkdir_parents t (FS.parent p));;
  update (λ t, FS.write_text t p content);;
  if make_executable then update (λ t, FS.chmod t p rwxr_xr_x) else mret tt.

Definition build_cleanup_script : string :=
  unlines [
    "#!/usr/bin/env bash";
    "# cleanup.sh " +:+ mojibake_dash +:+ " remove common ORCA scratch/intermediate files safely.";
    "# Adjust patterns as needed; by default we keep *.out, *.xyz, *.gbw.";
    EmptyString;
    "set -euo pipefail";
    EmptyString;
    "patterns=(";
    "  " +:+ quoted "*.tmp";
    "  " +:+ quoted "*.trj";
    "  " +:+ quoted "*.pc_*.xyz";
    "  " +:+ quoted "*.engrad";
    "  " +:+ quoted "*.hess";
    "  " +:+ quoted "*.molden.input";
    "  " +:+ quoted "*.mdci";
    "  " +:+ quoted "*.mdprop";
    "  " +:+ quoted "orca.*";
    "  " +:+ quoted "scratch";
    "  " +:+ quoted "tmp";
    ")";
    EmptyString;
    "shopt -s nullglob";
    "for p in " +:+ quoted "${patterns[@]}" +:+ "; do";
    "  rm -rf $p";
    "done";
    EmptyString;
    "echo " +:+ quoted "Cleanup done."
  ].

(** The [while j < remaining] loop of [select_indices].  It is entered
    only after the guard on [prune_den], so every pass brings [j] closer
    to [remaining]. *)
Equations stride_loop (remaining base prune_den : Z) (Hp : prune_den > 0)
    (j : Z) (selected : list Z) : list Z
  by wf (Z.to_nat (remaining - j)) lt :=
  stride_loop remaining base prune_den Hp j selected with Z_lt_dec j remaining := {
    | left _ =>
        stride_loop remaining base prune_den Hp (j + prune_den) (selected ++ [base + j])
    | right _ => selected
  }.
Next Obligation. lia. Qed.

Definition select_indices (total first_count : Z) (prune_den : option Z)
    : result (list Z) :=
  if total <=? 0 then Ok []
  else
    let first := Z.max 0 (Z.min first_count total) in
    let selected := range1 first in
    match prune_den with
    | None => Ok (sorted_set selected)
    | Some p =>
        match Z_le_gt_dec p 0 with
        | left _ => Raise (ValueError "-prune must be a positive integer.")
        | right Hp =>
            let remaining := total - first in
            let base := first in
            Ok (sorted_set (stride_loop remaining base p Hp 0 selected))
        end
    end.

Section Tool.

Context {B : Builtins}.

Definition read_text_or_file (value : string) : M string :=
  let p := Path value in
  let* is_file := query (λ t, FS.is_file t p) in
  if is_file then inspect (λ t, FS.read_text t p) else mret value.

(** One round of the [for] loop of [main]; [Some 2] is its [return 2],
    and [writes] is the part of the body after the [if].
    [Path(str(ord_idx))] has the decimal numeral as its only
    component. *)
Definition loop_body (chunks : list (list string))
    (orca_text slurm_text cleanup_text : string) (ord_idx geom_idx : Z) : M (option Z) :=
  let subdir := [str ord_idx] in
  let writes :=
    let* chunk := lift (getitem chunks geom_idx) in
    let geom_content := join nl chunk +:+ nl in
    write_file (subdir ++ ["geometry.xyz"]) geom_content false;;
    write_file (subdir ++ ["orca6.inp"]) orca_text false;;
    write_file (subdir ++ ["job.slurm"]) slurm_text false;;
    write_file (subdir ++ ["cleanup.sh"]) cleanup_text true;;
    mret None in
  let* present := query (λ t, FS.exists_ t subdir && FS.is_dir t subdir) in
  if present then
    let* occupied := query (λ t, FS.has_entries t subdir) in
    if occupied then
      print_err (ErrDirNotEmpty subdir);; mret (Some 2)
    else writes
  else
    update (λ t, FS.mkdir_parents t subdir);;
    writes.

Definition main (a : args) : M Z :=
  let geom_list_path := Path (geometry_list a) in
  let* is_file := query (λ t, FS.is_file t geom_list_path) in
  if negb is_file then
    print_err (ErrGeometryNotFound geom_list_path);; mret 2
  else if lines_per_geometry a <=? 0 then
    print_err ErrLinesPerGeometry;; mret 2
  else if first a <? 0 then
    print_err ErrFirst;; mret 2
  else if match prune a with Some p => p <=? 0 | None => false end then
    print_err ErrPrune;; mret 2
  else
    let* raw := inspect (λ t, FS.read_text t geom_list_path) in
    let lines := splitlines raw in
    let chunks := chunk_lines lines (lines_per_geometry a) in
    let total := len chunks in
    if total =? 0 then
      print_err NothingToDo;; mret 0
    else
      let remainder_lines := len lines - total * lines_per_geometry a in
      (if remainder_lines =? 0 then mret tt
       else print_err (WarnIgnoring remainder_lines));;
      match select_indices total (first a) (prune a) with
      | Raise (ValueError msg) => print_err (ErrValue msg);; mret 2
      | Raise e => raise e
      | Ok indices =>
          match indices with
          | [] => print_err SelectionEmpty;; mret 0
          | _ =>
              let* orca_text := read_text_or_file (orca_input a) in
              let* slurm_text := read_text_or_file (slurm_input a) in
              let cleanup_text := build_cleanup_script in
              let* returned := for_each_return (enumerate indices 1)
                (λ '(ord_idx, geom_idx),
                   loop_body chunks orca_text slurm_text cleanup_text ord_idx geom_idx) in
              match returned with
              | Some code => mret code
              | None =>
                  print (DoneCreated (len indices) total);;
                  mret 0
              end
          end
      end.

(** [sys.exit(main())] *)
Definition script (a : args) (w : world) : termination * world :=
  sys_exit (main a) w.

End Tool.

End PruneCreate.

(** ** Words of the specification, for comparison with the code *)

Module Spec.

(** [clamp(x, lo, hi)] *)
Definition clamp (x lo hi : Z) : Z := Z.max lo (Z.min x hi).

(** The prefix [[0, first)]. *)
Definition prefix (first : Z) : list Z := seqZ 0 first.

(** The stride sample [first, first+P, first+2P, ...] below [total]. *)
Definition stride_sample (first P total : Z) : list Z :=
  filter (λ x, x < total) ((λ k, first + k * P) <$> seqZ 0 (total - first)).

(** The union of the prefix with the stride sample, in ascending order. *)
Definition select (total first_count P : Z) : list Z :=
  let first := clamp first_count 0 total in
  prefix first ++ stride_sample first P total.

(** The cleanup-script text printed in section 6 of the specification,
    from its first line through its last. *)
Definition cleanup_script : string :=
  join nl [
    "#!/usr/bin/env bash";
    "set -euo pipefail";
    "patterns=(";
    "  " +:+ quoted "*.tmp" +:+ " " +:+ quoted "*.trj" +:+ " " +:+ quoted "*.pc_*.xyz"
         +:+ " " +:+ quoted "*.engrad" +:+ " " +:+ quoted "*.hess";
    "  " +:+ quoted "*.molden.input" +:+ " " +:+ quoted "*.mdci" +:+ " " +:+ quoted "*.mdprop"
         +:+ " " +:+ quoted "orca.*" +:+ " " +:+ quoted "scratch" +:+ " " +:+ quoted "tmp";
    ")";
    "shopt -s nullglob";
    "for p in " +:+ quoted "${patterns[@]}" +:+ "; do";
    "  rm -rf $p";
    "done";
    "echo " +:+ quoted "Cleanup done."
  ].

End Spec.

(** ** Reading a shell script: lines, comments, words *)

Module Shell.

(** The pieces of [s] between the characters that [sep] accepts. *)
Fixpoint split_where (sep : ascii → bool) (s : string) : list string :=
  match s with
  | EmptyString => [EmptyString]
  | String c rest =>
      if sep c then EmptyString :: split_where sep rest
      else match split_where sep rest with
           | [] => [String c EmptyString]
           | piece :: pieces => String c piece :: pieces
           end
  end.

Definition is_empty (s : string) : bool :=
  match s with EmptyString => true | _ => false end.

(** A comment line starts with [#]; the interpreter line [#!] is kept. *)
Definition is_comment (line : string) : bool :=
  match line with
  | String "#" (String "!" _) => false
  | String "#" _ => true
  | _ => false
  end.

Definition words (line : string) : list string :=
  List.filter (λ w, negb (is_empty w)) (split_where (Ascii.eqb " ") line).

(** The words of the script outside its comment lines: what the shell
    executes. *)
Definition command_words (script : string) : list string :=
  flat_map words
    (List.filter (λ l, negb (is_comment l)) (split_where (Ascii.eqb "010") script)).

End Shell.

(** ** A concrete runtime for examples

    Relative POSIX paths ([/] separates components, empty components and
    [.] are dropped) and texts whose only line boundary is the line
    feed. *)

Module Posix.

Definition parse_path (s : string) : path :=
  List.filter (λ c, negb (Shell.is_empty c) && negb (String.eqb c "."))
    (Shell.split_where (Ascii.eqb "/") s).

Definition split_lines (s : string) : list string :=
  match reverse (Shell.split_where (Ascii.eqb "010") s) with
  | EmptyString :: pieces => reverse pieces
  | pieces => reverse pieces
  end.

Definition runtime : Builtins :=
  {| Path := parse_path; splitlines := split_lines |}.

End Posix.

(** ** Notions used in the statements *)

Section Notions.

Context {B : Builtins}.

(** What the selector returns on valid input, before any rewriting. *)
Definition selection (total first_count : Z) (prune_den : option Z) : list Z :=
  let first := Z.max 0 (Z.min first_count total) in
  match prune_den with
  | None => seqZ 0 first
  | Some p => seqZ 0 first ++ (Z.add first <$> range3 0 (total - first) p)
  end.

Definition valid_prune (prune_den : option Z) : Prop :=
  match prune_den with None => True | Some p => 0 < p end.

(** The text of a regular file, whatever its permission bits. *)
Definition file_content (t : FS.tree) (p : path) : option string :=
  match FS.lookup t p with
  | Some (FS.File content _) => Some content
  | _ => None
  end.

(** The only change from [t] to [t'] at [q], if any, is a directory
    that appeared on the way to [p]. *)
Definition grown_towards (p : path) (t t' : FS.tree) (q : path) : Prop :=
  t' !! q = t !! q ∨
  (t !! q = None ∧ t' !! q = Some FS.Dir ∧ q `prefix_of` p ∧ q ≠ []).

(** The text that a path-or-literal argument stands for. *)
Definition resolved (t : FS.tree) (value : string) : string :=
  match FS.read_text t (Path value) with
  | Ok content => content
  | Raise _ => value
  end.

(** The directory of ordinal [idx] under [root]. *)
Definition job_dir (root : path) (idx : Z) : path := root ++ [str idx].

(** The directory [d] holds the artifacts of [chunk]: the geometry, the
    two template texts and the cleanup script. *)
Definition materialised (t : FS.tree) (d : path) (chunk : list string)
    (orca_text slurm_text cleanup_text : string) : Prop :=
  file_content t (d ++ ["geometry.xyz"]) = Some (join nl chunk +:+ nl) ∧
  file_content t (d ++ ["orca6.inp"]) = Some orca_text ∧
  file_content t (d ++ ["job.slurm"]) = Some slurm_text ∧
  file_content t (d ++ ["cleanup.sh"]) = Some cleanup_text.

(** [q] lies neither above nor below [d]. *)
Definition apart (d q : path) : Prop := ¬ q `prefix_of` d ∧ ¬ d `prefix_of` q.

(** The configuration errors of each tool, on the arguments and the
    file system it starts in. *)
Definition create_config_error (a : Create.args) (t : FS.tree) : Prop :=
  FS.is_file t (Path (Create.geometry_list a)) = false ∨
  Create.lines_per_geometry a ≤ 0.

Definition prune_config_error (a : PruneCreate.args) (t : FS.tree) : Prop :=
  FS.is_file t (Path (PruneCreate.geometry_list a)) = false ∨
  PruneCreate.lines_per_geometry a ≤ 0 ∨
  PruneCreate.first a < 0 ∨
  (∃ p, PruneCreate.prune a = Some p ∧ p ≤ 0).

End Notions.

(** ** Concrete runs

    A geometry list of five lines (two geometries of two lines and one
    stray line), an empty one, and the arguments of a few invocations. *)

Module Demo.

Definition geometry : string := unlines ["2"; "H 0 0 0"; "2"; "H 0 0 1"; "stray"].

Definition tree0 : FS.tree := {[ ["ensemble.xyz"] := FS.File geometry None ]}.

Definition world0 : world := World tree0 [] [].

Definition empty_tree : FS.tree := {[ ["ensemble.xyz"] := FS.File EmptyString None ]}.

Definition empty_world : world := World empty_tree [] [].

(** [-g ensemble.xyz -n 2 -i ORCA -s SLURM -o batch], with or without
    [--force] and [--dry-run]. *)
Definition create_args (force dry_run : bool) : Create.args :=
  Create.Args "ensemble.xyz" 2 "! HF" "#SBATCH -n 1" "batch" force dry_run.

(** [-g ensemble.xyz -n 2 -i ORCA -s SLURM -first 1 -prune 1] *)
Definition prune_args : PruneCreate.args :=
  PruneCreate.Args "ensemble.xyz" 2 "! HF" "#SBATCH -n 1" 1 (Some 1).

Definition create (a : Create.args) (w : world) : termination * world :=
  @Create.script Posix.runtime a w.

Definition prune_create (a : PruneCreate.args) (w : world) : termination * world :=
  @PruneCreate.script Posix.runtime a w.

(** The world after a first, real run of each tool. *)
Definition world1 : world := (create (create_args false false) world0).2.

Definition world2 : world := (prune_create prune_args world0).2.

End Demo.
(** ** Facts about the Python fragment *)

Section PyFacts.

Lemma range_len_exact (n : Z) (q : nat) :
  0 < n → range_len 0 (Z.of_nat q * n) n = Z.of_nat q.
Proof.
  intros Hn. unfold range_len.
  destruct (Z.ltb_spec 0 n) as [_|]; [|lia].
  destruct q as [|q].
  - simpl. reflexivity.
  - destruct (Z.ltb_spec 0 (Z.of_nat (S q) * n)) as [_|]; [|nia].
    assert (Z.of_nat q = (Z.of_nat (S q) * n - 0 - 1) / n) as <-; [|lia].
    apply (Z.div_unique _ _ _ (n - 1)); [lia | nia].
Qed.

Lemma range3_multiples (n : Z) (q : nat) :
  0 < n → range3 0 (Z.of_nat q * n) n = (λ k : nat, Z.of_nat k * n) <$> seq 0 q.
Proof.
  intros Hn. unfold range3. rewrite range_len_exact by done.
  rewrite Nat2Z.id. reflexivity.
Qed.

Lemma range3_nil (start stop step : Z) :
  0 < step → stop ≤ start → range3 start stop step = [].
Proof.
  intros Hs Hle. unfold range3, range_len.
  destruct (Z.ltb_spec 0 step); [|lia].
  destruct (Z.ltb_spec start stop); [lia|]. reflexivity.
Qed.

Lemma range3_cons (start stop step : Z) :
  0 < step → start < stop →
  range3 start stop step = start :: range3 (start + step) stop step.
Proof.
  intros Hs Hlt. unfold range3.
  assert (range_len start stop step = Z.succ (range_len (start + step) stop step)) as ->.
  { unfold range_len. destruct (Z.ltb_spec 0 step); [|lia].
    destruct (Z.ltb_spec start stop); [|lia].
    destruct (Z.ltb_spec (start + step) stop).
    - replace (stop - start - 1) with ((stop - (start + step) - 1) + 1 * step) by lia.
      rewrite Z.div_add by lia. lia.
    - rewrite Z.div_small by lia. lia. }
  assert (0 ≤ range_len (start + step) stop step) as Hnn.
  { unfold range_len. destruct (Z.ltb_spec 0 step); [|lia].
    destruct (Z.ltb_spec (start + step) stop); [|lia].
    assert (0 ≤ (stop - (start + step) - 1) / step) by (apply Z.div_pos; lia). lia. }
  rewrite Z2Nat.inj_succ by done. simpl. f_equal; [lia|].
  rewrite <- fmap_S_seq, <- list_fmap_compose.
  apply list_fmap_ext. intros _ k _. simpl. lia.
Qed.

Lemma range1_seqZ (n : Z) : range1 n = seqZ 0 n.
Proof.
  unfold range1, range3, seqZ, range_len. simpl.
  destruct (Z.ltb_spec 0 n).
  - rewrite Z.div_1_r. replace (n - 0 - 1 + 1) with n by lia.
    apply list_fmap_ext. intros _ k _. lia.
  - rewrite (Z2Nat.nonpos n) by lia. reflexivity.
Qed.

Lemma slice_inside {A} (l : list A) (i n : Z) :
  0 ≤ i → 0 ≤ n → i + n ≤ len l →
  slice l i (i + n) = take (Z.to_nat n) (drop (Z.to_nat i) l).
Proof.
  intros Hi Hn Hle. unfold slice, slice_index.
  destruct (Z.ltb_spec i 0); [lia|].
  destruct (Z.ltb_spec (i + n) 0); [lia|].
  rewrite !Z.min_l by lia. f_equal. lia.
Qed.

(** The comprehension shared by both [chunk_lines]. *)
Lemma chunks_core (L : list string) (n : Z) (q : nat) :
  0 < n → Z.of_nat q * n ≤ len L →
  let cs := (λ i, slice L i (i + n)) <$> range3 0 (Z.of_nat q * n) n in
  length cs = q ∧
  Forall (λ c, len c = n) cs ∧
  concat cs = take (Z.to_nat (Z.of_nat q * n)) L.
Proof.
  intros Hn Hle cs. subst cs. rewrite range3_multiples by done.
  rewrite <- list_fmap_compose.
  split; [by rewrite length_fmap, length_seq|].
  induction q as [|q IH].
  - split; [constructor|]. simpl. by rewrite take_0.
  - destruct IH as [IH1 IH2]; [lia|].
    rewrite seq_S, fmap_app. simpl.
    assert ((λ i, slice L i (i + n)) (Z.of_nat q * n)
            = take (Z.to_nat n) (drop (Z.to_nat (Z.of_nat q * n)) L)) as Hs.
    { apply slice_inside; lia. }
    split.
    + apply Forall_app. split; [exact IH1|].
      constructor; [|constructor]. simpl. rewrite Hs. unfold len in *.
      rewrite length_take, length_drop. lia.
    + rewrite concat_app, IH2. simpl. rewrite Hs, app_nil_r.
      rewrite take_take_drop. f_equal. lia.
Qed.

Lemma sorted_set_fixed (l : list Z) :
  StronglySorted Z.lt l → sorted_set l = l.
Proof.
  intros Hs. unfold sorted_set.
  assert (NoDup l) as Hnd.
  { induction Hs as [|x l Hs IH Hall]; constructor; [|done].
    intros Hin. rewrite Forall_forall in Hall. specialize (Hall _ Hin). lia. }
  assert (remove_dups l = l) as ->.
  { clear Hs. induction Hnd as [|x l Hx Hnd IH]; [done|]. simpl.
    destruct (decide_rel _ x l); [done|]. by rewrite IH. }
  apply (StronglySorted_unique Z.le).
  - apply StronglySorted_merge_sort; apply _.
  - clear Hnd. induction Hs as [|x l Hs IH Hall]; constructor; [done|].
    eapply Forall_impl; [exact Hall|]. simpl. lia.
  - apply merge_sort_Permutation.
Qed.

End PyFacts.

(** ** Facts about [chunk_lines] *)

Section ChunkFacts.

Lemma div_to_nat (a n : Z) : 0 ≤ a → 0 < n → Z.of_nat (Z.to_nat (a / n)) = a / n.
Proof. intros Ha Hn. apply Z2Nat.id. apply Z.div_pos; lia. Qed.

(** On a positive [n] both tools compute the same comprehension. *)
Lemma chunk_lines_unfold_pos (L : list string) (n : Z) :
  0 < n →
  let cs := (λ i, slice L i (i + n)) <$> range3 0 (len L / n * n) n in
  Create.chunk_lines L n = Ok cs ∧ PruneCreate.chunk_lines L n = cs.
Proof.
  intros Hn cs. unfold Create.chunk_lines, PruneCreate.chunk_lines, floordiv.
  destruct (Z.eqb_spec n 0); [lia|].
  destruct (Z.leb_spec n 0); [lia|]. done.
Qed.

Lemma chunk_lines_shape (L : list string) (n : Z) :
  0 < n →
  let cs := (λ i, slice L i (i + n)) <$> range3 0 (len L / n * n) n in
  len cs = len L / n ∧
  Forall (λ c, len c = n) cs ∧
  concat cs = take (Z.to_nat (len L / n * n)) L.
Proof.
  intros Hn. assert (0 ≤ len L) as HL by (unfold len; lia).
  pose proof (div_to_nat (len L) n HL Hn) as Hq.
  pose proof (Z.mul_div_le (len L) n Hn) as Hle.
  rewrite <- Hq. simpl.
  destruct (chunks_core L n (Z.to_nat (len L / n)) Hn) as (H1 & H2 & H3); [lia|].
  split; [|done]. unfold len at 1. by rewrite H1.
Qed.

(** A negative [n] in tool 1: the quotient is not positive, the stop of
    the range is not negative, and a descending range from 0 is empty. *)
Lemma create_chunk_lines_neg (L : list string) (n : Z) :
  n < 0 → Create.chunk_lines L n = Ok [].
Proof.
  intros Hn. unfold Create.chunk_lines, floordiv.
  destruct (Z.eqb_spec n 0) as [|Hne]; [lia|]. f_equal.
  assert (0 ≤ len L / n * n) as Hstop.
  { assert (0 ≤ len L) by (unfold len; lia).
    pose proof (Z.div_mod (len L) n Hne).
    pose proof (Z.mod_neg_bound (len L) n Hn). lia. }
  unfold range3, range_len.
  destruct (Z.ltb_spec 0 n); [lia|].
  destruct (Z.ltb_spec (len L / n * n) 0); [lia|]. done.
Qed.

End ChunkFacts.

(** ** Facts about [select_indices] *)

Section SelectFacts.

Lemma range_len_nonneg (start stop step : Z) :
  0 < step → 0 ≤ range_len start stop step.
Proof.
  intros Hs. unfold range_len. destruct (Z.ltb_spec 0 step); [|lia].
  destruct (Z.ltb_spec start stop); [|lia].
  assert (0 ≤ (stop - start - 1) / step) by (apply Z.div_pos; lia). lia.
Qed.

Lemma range_len_lt (start stop step k : Z) :
  0 < step → 0 ≤ k →
  k < range_len start stop step ↔ start + k * step < stop.
Proof.
  intros Hs Hk. unfold range_len. destruct (Z.ltb_spec 0 step); [|lia].
  destruct (Z.ltb_spec start stop).
  - pose proof (Z.div_mod (stop - start - 1) step ltac:(lia)).
    pose proof (Z.mod_pos_bound (stop - start - 1) step Hs).
    split; intros; nia.
  - split; intros; nia.
Qed.

Lemma elem_of_range3 (start stop step x : Z) :
  0 < step →
  x ∈ range3 start stop step ↔ ∃ k, 0 ≤ k ∧ x = start + k * step ∧ x < stop.
Proof.
  intros Hs. unfold range3. rewrite list_elem_of_fmap. split.
  - intros (k & -> & Hk). apply elem_of_seq in Hk.
    exists (Z.of_nat k). split; [lia|]. split; [done|].
    apply range_len_lt; [done|lia|].
    pose proof (range_len_nonneg start stop step Hs). lia.
  - intros (k & Hk & -> & Hlt). exists (Z.to_nat k).
    split; [lia|]. apply elem_of_seq.
    apply range_len_lt in Hlt; [|done..]. lia.
Qed.

Lemma affine_seq_sorted (a p : Z) (s c : nat) :
  0 < p → StronglySorted Z.lt ((λ k : nat, a + Z.of_nat k * p) <$> seq s c).
Proof.
  intros Hp. revert s. induction c as [|c IH]; intros s; simpl; constructor.
  - apply IH.
  - apply Forall_fmap, Forall_seq. intros i Hi. simpl. nia.
Qed.

Lemma range3_sorted (start stop step : Z) :
  0 < step → StronglySorted Z.lt (range3 start stop step).
Proof. intros. by apply affine_seq_sorted. Qed.

Lemma seqZ_sorted (m n : Z) : StronglySorted Z.lt (seqZ m n).
Proof.
  unfold seqZ.
  erewrite list_fmap_ext; [by apply (affine_seq_sorted m 1)|].
  intros i k _. simpl. lia.
Qed.

(** The loop appends the stride sample that starts at [j]. *)
Lemma stride_loop_spec (remaining base p : Z) (Hp : p > 0) (j : Z) (selected : list Z) :
  PruneCreate.stride_loop remaining base p Hp j selected
  = selected ++ (Z.add base <$> range3 j remaining p).
Proof.
  funelim (PruneCreate.stride_loop remaining base p Hp j selected).
  - rewrite H. rewrite (range3_cons j) by lia.
    rewrite fmap_cons. by rewrite <- app_assoc.
  - by rewrite range3_nil, app_nil_r by lia.
Qed.

Lemma selection_sorted (total first_count : Z) (prune_den : option Z) :
  valid_prune prune_den → StronglySorted Z.lt (selection total first_count prune_den).
Proof.
  intros Hv. unfold selection. destruct prune_den as [p|]; [|apply seqZ_sorted].
  simpl in Hv. apply StronglySorted_app_2.
  - intros x1 x2 H1 H2. apply elem_of_seqZ in H1.
    apply list_elem_of_fmap in H2 as (y & -> & Hy).
    apply elem_of_range3 in Hy as (k & Hk & -> & _); [|done]. nia.
  - apply seqZ_sorted.
  - apply (StronglySorted_fmap _ Z.lt Z.lt); [|by apply range3_sorted].
    intros x y Hxy. lia.
Qed.

Lemma selection_bounds (total first_count : Z) (prune_den : option Z) :
  0 ≤ total → valid_prune prune_den →
  Forall (λ x, 0 ≤ x < total) (selection total first_count prune_den).
Proof.
  intros Ht Hv. unfold selection. destruct prune_den as [p|].
  - apply Forall_app. split.
    + apply Forall_seqZ. lia.
    + apply Forall_fmap, Forall_forall. intros y Hy. simpl in *.
      apply elem_of_range3 in Hy as (k & Hk & -> & Hlt); [|done]. nia.
  - apply Forall_seqZ. lia.
Qed.

Lemma select_indices_value (total first_count : Z) (prune_den : option Z) :
  0 ≤ total → valid_prune prune_den →
  PruneCreate.select_indices total first_count prune_den
  = Ok (selection total first_count prune_den).
Proof.
  intros Ht Hv. unfold PruneCreate.select_indices.
  destruct (Z.leb_spec total 0) as [Hle|Hpos].
  - assert (total = 0) as -> by lia. unfold selection.
    assert (Z.max 0 (Z.min first_count 0) = 0) as -> by lia.
    destruct prune_den as [p|]; simpl in *; [|done].
    by rewrite range3_nil by lia.
  - pose proof (selection_sorted total first_count prune_den Hv) as Hs.
    unfold selection in *. rewrite range1_seqZ.
    destruct prune_den as [p|]; simpl in *.
    + destruct (Z_le_gt_dec p 0) as [|Hp]; [lia|].
      rewrite stride_loop_spec.
      by rewrite sorted_set_fixed.
    + by rewrite sorted_set_fixed.
Qed.

(** A denominator that is present and not positive is refused, whatever
    the other arguments, once there is at least one chunk. *)
Lemma select_indices_bad_prune (total first_count p : Z) :
  0 < total → p ≤ 0 →
  PruneCreate.select_indices total first_count (Some p)
  = Raise (ValueError "-prune must be a positive integer.").
Proof.
  intros Ht Hp. unfold PruneCreate.select_indices.
  destruct (Z.leb_spec total 0); [lia|].
  destruct (Z_le_gt_dec p 0); [done|lia].
Qed.

End SelectFacts.

(** ** The selector against the words of the specification *)

Section SelectSpec.

Lemma filter_all {A} (P : A → Prop) `{!∀ x, Decision (P x)} (l : list A) :
  Forall P l → filter P l = l.
Proof.
  induction 1 as [|x l Hx Hl IH]; [done|].
  by rewrite filter_cons_True, IH.
Qed.

Lemma filter_none {A} (P : A → Prop) `{!∀ x, Decision (P x)} (l : list A) :
  Forall (λ x, ¬ P x) l → filter P l = [].
Proof.
  induction 1 as [|x l Hx Hl IH]; [done|].
  by rewrite filter_cons_False.
Qed.

Lemma range_len_le_span (stop p : Z) :
  0 < p → 0 < stop → range_len 0 stop p ≤ stop.
Proof.
  intros Hp Hs. destruct (Z.le_gt_cases (range_len 0 stop p) stop) as [|Hgt]; [done|].
  apply range_len_lt in Hgt; [nia|done|lia].
Qed.

Lemma stride_sample_range3 (first P total : Z) :
  0 < P →
  Spec.stride_sample first P total = Z.add first <$> range3 0 (total - first) P.
Proof.
  intros HP. unfold Spec.stride_sample.
  destruct (Z.le_gt_cases (total - first) 0) as [Hle|Hpos].
  { by rewrite seqZ_nil, range3_nil by lia. }
  set (rem := total - first) in *. set (c := range_len 0 rem P).
  pose proof (range_len_nonneg 0 rem P HP) as Hc0.
  pose proof (range_len_le_span rem P HP Hpos) as Hc1. fold c in Hc0, Hc1.
  replace rem with (c + (rem - c)) at 1 by lia.
  rewrite seqZ_app by lia. rewrite fmap_app, filter_app.
  rewrite filter_all, filter_none.
  - rewrite app_nil_r. unfold seqZ, range3. fold c.
    rewrite <- !list_fmap_compose. apply list_fmap_ext. intros _ k _. simpl. lia.
  - apply Forall_fmap, Forall_seqZ. intros k Hk. simpl.
    assert (¬ k < c) as Hn by lia. unfold c in Hn.
    rewrite range_len_lt in Hn by lia. subst rem. lia.
  - apply Forall_fmap, Forall_seqZ. intros k Hk. simpl.
    assert (k < c) as Hn by lia. unfold c in Hn.
    rewrite range_len_lt in Hn by lia. subst rem. lia.
Qed.

Lemma spec_select_selection (total first_count P : Z) :
  0 < P → Spec.select total first_count P = selection total first_count (Some P).
Proof.
  intros HP. unfold Spec.select, selection, Spec.prefix, Spec.clamp.
  by rewrite stride_sample_range3.
Qed.

Lemma elem_of_stride_sample (first P total x : Z) :
  0 < P →
  x ∈ Spec.stride_sample first P total ↔ ∃ k, 0 ≤ k ∧ x = first + k * P ∧ x < total.
Proof.
  intros HP. rewrite stride_sample_range3 by done.
  rewrite list_elem_of_fmap. split.
  - intros (y & -> & Hy). apply elem_of_range3 in Hy as (k & Hk & -> & Hlt); [|done].
    exists k. lia.
  - intros (k & Hk & -> & Hlt). exists (0 + k * P). split; [lia|].
    apply elem_of_range3; [done|]. exists k. lia.
Qed.

End SelectSpec.

(** ** Facts about the file system *)

Section FSFacts.

Implicit Types (t : FS.tree) (p q : path).

Lemma mkdir_walk_frame t cur todo target t' :
  FS.mkdir_walk t cur todo target = Ok t' →
  ∀ q, t' !! q = t !! q ∨
       (t !! q = None ∧ t' !! q = Some FS.Dir ∧
        q `prefix_of` cur ++ todo ∧ length cur < length q)%nat.
Proof.
  revert t cur. induction todo as [|c rest IH]; intros t cur Hw q; simpl in Hw.
  { left. congruence. }
  assert (∀ t1, FS.mkdir_walk t1 (cur ++ [c]) rest target = Ok t' →
    t' !! q = t1 !! q ∨
    (t1 !! q = None ∧ t' !! q = Some FS.Dir ∧
     q `prefix_of` cur ++ c :: rest ∧ length cur < length q)%nat) as Hstep.
  { intros t1 H1. destruct (IH _ _ H1 q) as [?|(? & ? & Hpre & Hlen)]; [by left|right].
    rewrite <- app_assoc in Hpre. rewrite length_app in Hlen. simpl in *.
    repeat split; [done..|lia]. }
  destruct (t !! (cur ++ [c])) as [[content mode|]|] eqn:Hcur.
  - destruct rest; discriminate.
  - by apply Hstep.
  - destruct (Hstep _ Hw) as [Heq|(Hnone & ? & ? & ?)].
    + destruct (decide (q = cur ++ [c])) as [->|Hne].
      * right. rewrite lookup_insert_eq in Heq. repeat split; [done..| |].
        -- exists rest. by rewrite <- app_assoc.
        -- rewrite length_app. simpl. lia.
      * left. by rewrite lookup_insert_ne in Heq.
    + destruct (decide (q = cur ++ [c])) as [->|Hne].
      * by rewrite lookup_insert_eq in Hnone.
      * right. by rewrite lookup_insert_ne in Hnone.
Qed.

Lemma mkdir_parents_frame t p t' :
  FS.mkdir_parents t p = Ok t' → ∀ q, grown_towards p t t' q.
Proof.
  intros Hm q. destruct (mkdir_walk_frame _ _ _ _ _ Hm q) as [?|(? & ? & ? & Hlen)].
  - by left.
  - right. repeat split; [done..|]. intros ->. simpl in Hlen. lia.
Qed.

Lemma grown_towards_lookup p t t' q :
  grown_towards p t t' q →
  FS.lookup t' q = FS.lookup t q ∨
  (FS.lookup t q = None ∧ FS.lookup t' q = Some FS.Dir ∧ q `prefix_of` p).
Proof.
  destruct q as [|c q]; [by left|]. simpl. intros [?|(? & ? & ? & _)]; [by left|by right].
Qed.

Lemma grown_towards_content p t t' :
  (∀ q, grown_towards p t t' q) → ∀ q, file_content t' q = file_content t q.
Proof.
  intros H q. unfold file_content.
  destruct (grown_towards_lookup _ _ _ _ (H q)) as [->|(-> & -> & _)]; done.
Qed.

Lemma grown_towards_read p t t' q :
  (∀ q, grown_towards p t t' q) → FS.is_file t q = true →
  FS.read_text t' q = FS.read_text t q.
Proof.
  intros H. unfold FS.is_file, FS.read_text.
  destruct (grown_towards_lookup _ _ _ _ (H q)) as [->|(-> & -> & _)]; done.
Qed.

Lemma write_text_ok t p content t' :
  FS.write_text t p content = Ok t' →
  p ≠ [] ∧ ∃ mode, t' = <[p := FS.File content mode]> t.
Proof.
  unfold FS.write_text. destruct p as [|c p]; [done|].
  intros H. split; [done|].
  destruct (FS.lookup t (c :: p)) as [[? mode|]|]; [by simplify_eq; eauto|done|].
  destruct (FS.lookup t (FS.parent (c :: p))) as [[]|]; by simplify_eq; eauto.
Qed.

Lemma chmod_ok t p mode t' :
  FS.chmod t p mode = Ok t' →
  ∀ q, file_content t' q = file_content t q.
Proof.
  unfold FS.chmod. destruct (FS.lookup t p) as [[content m|]|] eqn:Hp; [|congruence..].
  intros [= <-] q. unfold file_content.
  destruct q as [|c q]; [done|]. destruct p as [|c' p]; [done|]. simpl in *.
  destruct (decide (c' :: p = c :: q)) as [Heq|Hne].
  - rewrite <- Heq, lookup_insert_eq, Hp. done.
  - by rewrite lookup_insert_ne.
Qed.

Lemma chmod_lookup t p mode t' :
  FS.chmod t p mode = Ok t' → ∀ q, q ≠ p → t' !! q = t !! q.
Proof.
  unfold FS.chmod. destruct (FS.lookup t p) as [[content m|]|]; [|congruence..].
  intros [= <-] q Hq. by rewrite lookup_insert_ne.
Qed.

Lemma file_content_insert t p content mode :
  p ≠ [] → file_content (<[p := FS.File content mode]> t) p = Some content.
Proof.
  intros Hp. unfold file_content. destruct p; [done|]. simpl.
  by rewrite lookup_insert_eq.
Qed.

Lemma file_content_frame t t' q :
  t' !! q = t !! q → file_content t' q = file_content t q.
Proof. unfold file_content, FS.lookup. by intros ->. Qed.

End FSFacts.

(** ** Running computations *)

Section MonadFacts.

Lemma mbind_bind {A C} (m : M A) (k : A → M C) : mbind k m = bind m k.
Proof. reflexivity. Qed.

Lemma bind_inv {A C} (m : M A) (k : A → M C) (w w' : world) (r : result C) :
  bind m k w = (r, w') →
  (∃ a w1, m w = (Ok a, w1) ∧ k a w1 = (r, w')) ∨
  (∃ e, m w = (Raise e, w') ∧ r = Raise e).
Proof.
  unfold bind. destruct (m w) as [[a|e] w1]; intros H.
  - left. eauto.
  - right. simplify_eq. eauto.
Qed.

Lemma bind_ok_inv {A C} (m : M A) (k : A → M C) (w w' : world) (c : C) :
  bind m k w = (Ok c, w') →
  ∃ a w1, m w = (Ok a, w1) ∧ k a w1 = (Ok c, w').
Proof.
  intros H. apply bind_inv in H as [?|(e & _ & ?)]; [done|discriminate].
Qed.

Lemma bind_step {A C} (m : M A) (k : A → M C) (w w1 : world) (a : A) :
  m w = (Ok a, w1) → bind m k w = k a w1.
Proof. unfold bind. by intros ->. Qed.

Lemma update_inv (f : FS.tree → result FS.tree) (w w' : world) (r : result unit) :
  update f w = (r, w') →
  (∃ t, f (files w) = Ok t ∧ r = Ok tt ∧ w' = World t (stdout w) (stderr w)) ∨
  (∃ e, f (files w) = Raise e ∧ r = Raise e ∧ w' = w).
Proof.
  unfold update. destruct (f (files w)) as [t|e]; intros [= <- <-]; eauto.
Qed.

Lemma update_ok_inv (f : FS.tree → result FS.tree) (w w' : world) (u : unit) :
  update f w = (Ok u, w') →
  ∃ t, f (files w) = Ok t ∧ w' = World t (stdout w) (stderr w).
Proof.
  intros H. apply update_inv in H as [(t & ? & _ & ?)|(e & _ & ? & _)]; [eauto|done].
Qed.

Lemma update_step (f : FS.tree → result FS.tree) (w : world) (t : FS.tree) :
  f (files w) = Ok t → update f w = (Ok tt, World t (stdout w) (stderr w)).
Proof. unfold update. by intros ->. Qed.

Lemma print_files (m : message) (w w' : world) (r : result unit) :
  print m w = (r, w') → r = Ok tt ∧ files w' = files w ∧ stderr w' = stderr w.
Proof. by intros [= <- <-]. Qed.

Lemma print_err_files (m : message) (w w' : world) (r : result unit) :
  print_err m w = (r, w') → r = Ok tt ∧ files w' = files w ∧ stdout w' = stdout w.
Proof. by intros [= <- <-]. Qed.

End MonadFacts.

(** Take a successful run apart, one step at a time. *)
Ltac run_inv H :=
  repeat match type of H with
  | mbind _ _ _ = _ => rewrite mbind_bind in H
  | bind _ _ _ = (Ok _, _) =>
      let a := fresh "a" in let w := fresh "w" in
      let H1 := fresh "Hrun" in
      apply bind_ok_inv in H as (a & w & H1 & H)
  end.

(** ** Facts about the runs of [orca6-batch-create.py] *)

Section CreateFacts.

Context {B : Builtins}.

Lemma file_names_differ (d : path) (x y : string) :
  x ≠ y → d ++ [x] ≠ d ++ [y].
Proof. intros Hxy Heq. apply app_inv_head in Heq. congruence. Qed.

Lemma create_write_file_ok (p : path) (content : string) (ex : bool) (w w' : world) :
  Create.write_file p content ex w = (Ok tt, w') →
  file_content (files w') p = Some content ∧
  (∀ q, q ≠ p → files w' !! q = files w !! q).
Proof.
  unfold Create.write_file. intros H. run_inv H.
  apply update_ok_inv in Hrun as (t1 & Hw & ->).
  apply write_text_ok in Hw as (Hp & mode & ->).
  destruct ex.
  - apply update_ok_inv in H as (t2 & Hc & ->). simpl in *. split.
    + rewrite (chmod_ok _ _ _ _ Hc). by apply file_content_insert.
    + intros q Hq. rewrite (chmod_lookup _ _ _ _ Hc) by done.
      by rewrite lookup_insert_ne.
  - injection H as <-. simpl. split.
    + by apply file_content_insert.
    + intros q Hq. by rewrite lookup_insert_ne.
Qed.

Lemma ensure_dir_ok (p : path) (force : bool) (w w' : world) :
  Create.ensure_dir p force w = (Ok tt, w') →
  ∀ q, grown_towards p (files w) (files w') q.
Proof.
  unfold Create.ensure_dir. intros H. run_inv H.
  injection Hrun as <- <-.
  destruct (FS.exists_ (files w) p); simpl in H.
  - run_inv H. injection Hrun as <- <-.
    destruct (FS.is_dir (files w) p); simpl in H; [|discriminate].
    run_inv H. injection Hrun as <- <-.
    destruct (FS.has_entries (files w) p); [destruct force; [|discriminate]|];
      injection H as <-; by left.
  - apply update_ok_inv in H as (t & Hm & ->). simpl.
    by apply mkdir_parents_frame.
Qed.

Lemma apart_file (d : path) (x : string) (q : path) : apart d q → q ≠ d ++ [x].
Proof. intros [_ Hq] ->. apply Hq. by exists [x]. Qed.

Lemma create_loop_body_ok (a : Create.args) (root : path)
    (orca_text slurm_text cleanup_text : string) (idx : Z) (chunk : list string)
    (w w' : world) :
  Create.dry_run a = false →
  Create.loop_body a root orca_text slurm_text cleanup_text idx chunk w = (Ok tt, w') →
  materialised (files w') (job_dir root idx) chunk orca_text slurm_text cleanup_text ∧
  (∀ q, apart (job_dir root idx) q → files w' !! q = files w !! q).
Proof.
  unfold Create.loop_body. intros -> H. fold (job_dir root idx) in H.
  set (d := job_dir root idx) in *. rewrite !mbind_bind in H.
  apply bind_ok_inv in H as ([] & w0 & H0 & H).
  apply bind_ok_inv in H as ([] & w1 & H1 & H).
  apply bind_ok_inv in H as ([] & w2 & H2 & H).
  apply bind_ok_inv in H as ([] & w3 & H3 & H).
  change (Create.ensure_dir d (Create.force a) w = (Ok tt, w0)) in H0.
  pose proof (ensure_dir_ok _ _ _ _ H0) as E0.
  apply create_write_file_ok in H1 as [G1 F1].
  apply create_write_file_ok in H2 as [G2 F2].
  apply create_write_file_ok in H3 as [G3 F3].
  apply create_write_file_ok in H as [G4 F4].
  split.
  - repeat split.
    + rewrite <- G1.
      rewrite (file_content_frame (files w3) (files w')) by (apply F4, file_names_differ; done).
      rewrite (file_content_frame (files w2) (files w3)) by (apply F3, file_names_differ; done).
      by rewrite (file_content_frame (files w1) (files w2)) by (apply F2, file_names_differ; done).
    + rewrite <- G2.
      rewrite (file_content_frame (files w3) (files w')) by (apply F4, file_names_differ; done).
      by rewrite (file_content_frame (files w2) (files w3)) by (apply F3, file_names_differ; done).
    + rewrite <- G3.
      by rewrite (file_content_frame (files w3) (files w')) by (apply F4, file_names_differ; done).
    + done.
  - intros q Hq.
    rewrite F4, F3, F2, F1 by (by apply apart_file).
    destruct (E0 q) as [?|(_ & _ & Hpre & _)]; [done|]. by destruct Hq.
Qed.

Lemma job_dir_apart (root : path) (i j : Z) (name : string) :
  i ≠ j → apart (job_dir root j) (job_dir root i ++ [name]).
Proof.
  intros Hij. unfold job_dir. split; intros Hpre.
  - apply prefix_length in Hpre. rewrite !length_app in Hpre. simpl in Hpre. lia.
  - rewrite <- app_assoc in Hpre. apply prefix_app_inv in Hpre.
    apply prefix_cons_inv_1 in Hpre. apply Hij. symmetry.
    by apply (inj pretty).
Qed.

Lemma materialised_frame (t t' : FS.tree) (d : path) (chunk : list string)
    (orca_text slurm_text cleanup_text : string) :
  (∀ name, t' !! (d ++ [name]) = t !! (d ++ [name])) →
  materialised t d chunk orca_text slurm_text cleanup_text →
  materialised t' d chunk orca_text slurm_text cleanup_text.
Proof.
  intros Hf (H1 & H2 & H3 & H4). unfold materialised.
  by rewrite !(file_content_frame t t') by apply Hf.
Qed.

Lemma create_loop_ok (a : Create.args) (root : path)
    (orca_text slurm_text cleanup_text : string) :
  Create.dry_run a = false →
  ∀ (chunks : list (list string)) (s : Z) (w w' : world),
  for_each (enumerate chunks s)
    (λ '(idx, chunk),
       Create.loop_body a root orca_text slurm_text cleanup_text idx chunk) w
  = (Ok tt, w') →
  (∀ (k : nat) chunk, chunks !! k = Some chunk →
     materialised (files w') (job_dir root (s + Z.of_nat k)) chunk
       orca_text slurm_text cleanup_text) ∧
  (∀ q, (∀ k : nat, (k < length chunks)%nat → apart (job_dir root (s + Z.of_nat k)) q) →
     files w' !! q = files w !! q).
Proof.
  intros Hdry chunks. induction chunks as [|c rest IH]; intros s w w' H; simpl in H.
  { injection H as <-. split; [by intros k chunk Hk|done]. }
  rewrite mbind_bind in H. apply bind_ok_inv in H as ([] & w1 & Hbody & H).
  apply create_loop_body_ok in Hbody as [Hm Hf]; [|done].
  apply IH in H as [IHm IHf]. split.
  - intros [|k] chunk Hk; simpl in Hk.
    + injection Hk as <-. rewrite Z.add_0_r.
      eapply materialised_frame; [|exact Hm]. intros name. apply IHf.
      intros k Hk. apply job_dir_apart. lia.
    + replace (s + Z.of_nat (S k)) with (s + 1 + Z.of_nat k) by lia. by apply IHm.
  - intros q Hq. rewrite IHf.
    + apply Hf. specialize (Hq 0%nat). rewrite Z.add_0_r in Hq. apply Hq. simpl. lia.
    + intros k Hk. replace (s + 1 + Z.of_nat k) with (s + Z.of_nat (S k)) by lia.
      apply Hq. simpl. lia.
Qed.

Lemma read_text_is_file (t : FS.tree) (p : path) (raw : string) :
  FS.read_text t p = Ok raw → FS.is_file t p = true.
Proof.
  unfold FS.read_text, FS.is_file. by destruct (FS.lookup t p) as [[]|].
Qed.

Lemma read_arg_text_or_file_run (value : string) (w : world) :
  Create.read_arg_text_or_file value w = (Ok (resolved (files w) value), w).
Proof.
  unfold Create.read_arg_text_or_file, resolved, bind, query, inspect.
  unfold FS.is_file, FS.read_text. cbv beta zeta iota.
  destruct (FS.lookup (files w) (Path value)) as [[]|] eqn:E;
    cbv beta iota; rewrite ?E; reflexivity.
Qed.

Lemma resolved_grown (p : path) (t t' : FS.tree) (value : string) :
  (∀ q, grown_towards p t t' q) → resolved t' value = resolved t value.
Proof.
  intros H. unfold resolved, FS.read_text.
  destruct (grown_towards_lookup _ _ _ _ (H (Path value))) as [->|(-> & -> & _)]; done.
Qed.

Lemma create_main_ok (a : Create.args) (w w' : world) (code : Z)
    (raw : string) (chunks : list (list string)) :
  Create.main a w = (Ok code, w') →
  Create.dry_run a = false →
  FS.read_text (files w) (Path (Create.geometry_list a)) = Ok raw →
  Create.chunk_lines (splitlines raw) (Create.lines_per_geometry a) = Ok chunks →
  ∀ (k : nat) chunk, chunks !! k = Some chunk →
    materialised (files w') (job_dir (Path (Create.out a)) (1 + Z.of_nat k)) chunk
      (resolved (files w) (Create.orca_input a))
      (resolved (files w) (Create.slurm_input a))
      Create.build_cleanup_script.
Proof.
  intros H Hdry Hraw Hchunks k chunk Hk.
  unfold Create.main in H.
  apply bind_ok_inv in H as (is_file & w0 & Hq & H). injection Hq as <- <-.
  rewrite (read_text_is_file _ _ _ Hraw) in H. simpl in H.
  destruct (Z.leb_spec (Create.lines_per_geometry a) 0) as [Hn|Hn].
  { destruct (decide (Create.lines_per_geometry a = 0)) as [Hz|Hz].
    - rewrite Hz in Hchunks. discriminate.
    - rewrite create_chunk_lines_neg in Hchunks by lia.
      injection Hchunks as <-. done. }
  rewrite !mbind_bind in H.
  apply bind_ok_inv in H as ([] & w1 & Hmk & H).
  apply update_ok_inv in Hmk as (t1 & Hmk & ->).
  pose proof (mkdir_parents_frame _ _ _ Hmk) as Hgrow.
  apply bind_ok_inv in H as (raw' & w2 & Hread & H).
  unfold inspect in Hread. simpl in Hread.
  rewrite (grown_towards_read _ _ _ _ Hgrow) in Hread
    by (by eapply read_text_is_file).
  rewrite Hraw in Hread. injection Hread as <- <-.
  apply bind_ok_inv in H as (chunks' & w3 & Hch & H).
  unfold lift in Hch. rewrite Hchunks in Hch. injection Hch as <- <-.
  apply bind_ok_inv in H as ([] & w4 & Hwarn & H).
  assert (files w4 = t1) as Hw4.
  { destruct (_ =? 0) in Hwarn.
    - by injection Hwarn as <-.
    - by apply print_err_files in Hwarn as (_ & -> & _). }
  apply bind_ok_inv in H as (orca_text & w5 & Ho & H).
  rewrite read_arg_text_or_file_run in Ho. injection Ho as <- <-.
  apply bind_ok_inv in H as (slurm_text & w6 & Hs & H).
  rewrite read_arg_text_or_file_run in Hs. injection Hs as <- <-.
  rewrite Hw4, !(resolved_grown _ _ _ _ Hgrow) in H.
  destruct (len chunks =? 0) eqn:Hz.
  { apply Z.eqb_eq in Hz. destruct chunks; [done|]. unfold len in Hz. simpl in Hz. lia. }
  apply bind_ok_inv in H as ([] & w7 & Hp1 & H).
  apply bind_ok_inv in H as ([] & w8 & Hp2 & H).
  apply bind_ok_inv in H as ([] & w9 & Hloop & H).
  apply bind_ok_inv in H as ([] & w10 & Hp3 & H).
  injection H as <- <-.
  apply print_files in Hp3 as (_ & -> & _).
  eapply create_loop_ok in Hloop as [Hm _]; [|done]. by apply Hm.
Qed.

(** *** Dry runs *)

Lemma create_loop_body_dry (a : Create.args) (root : path)
    (orca_text slurm_text cleanup_text : string) (idx : Z) (chunk : list string)
    (w : world) :
  Create.dry_run a = true →
  ∃ w', Create.loop_body a root orca_text slurm_text cleanup_text idx chunk w = (Ok tt, w')
        ∧ files w' = files w ∧ stderr w' = stderr w.
Proof.
  intros Hdry. unfold Create.loop_body. rewrite Hdry.
  eexists. split; [reflexivity|]. done.
Qed.

Lemma create_loop_dry (a : Create.args) (root : path)
    (orca_text slurm_text cleanup_text : string) (l : list (Z * list string)) (w : world) :
  Create.dry_run a = true →
  ∃ w', for_each l
          (λ '(idx, chunk),
             Create.loop_body a root orca_text slurm_text cleanup_text idx chunk) w
        = (Ok tt, w')
        ∧ files w' = files w ∧ stderr w' = stderr w.
Proof.
  intros Hdry. revert w. induction l as [|[idx chunk] l IH]; intros w; simpl.
  { by exists w. }
  destruct (create_loop_body_dry a root orca_text slurm_text cleanup_text idx chunk w Hdry)
    as (w1 & H1 & Hf1 & He1).
  destruct (IH w1) as (w2 & H2 & Hf2 & He2).
  exists w2. rewrite mbind_bind, (bind_step _ _ _ _ _ H1).
  split; [done|]. split; congruence.
Qed.

(** Whatever the outcome of a dry run, the only change to the file
    system is the one that [out_root.mkdir] makes. *)
Lemma create_main_dry (a : Create.args) (w w' : world) (r : result Z) :
  Create.dry_run a = true →
  Create.main a w = (r, w') →
  files w' = files w ∨
  FS.mkdir_parents (files w) (Path (Create.out a)) = Ok (files w').
Proof.
  intros Hdry H. unfold Create.main in H.
  apply bind_inv in H as [(is_file & w0 & Hq & H)|(e & Hq & _)]; [|discriminate].
  injection Hq as <- <-.
  destruct (FS.is_file (files w) _); simpl in H; [|injection H as <- <-; by left].
  destruct (_ <=? 0); [injection H as <- <-; by left|].
  rewrite !mbind_bind in H.
  apply bind_inv in H as [([] & w1 & Hmk & H)|(e & Hmk & _)]; cycle 1.
  { apply update_inv in Hmk as [(? & _ & ? & _)|(_ & _ & _ & ->)]; [done|by left]. }
  apply update_ok_inv in Hmk as (t1 & Hmk & ->). right. rewrite Hmk. f_equal.
  apply bind_inv in H as [(raw & w2 & Hread & H)|(e & Hread & _)];
    [|by injection Hread as _ <-].
  injection Hread as _ <-.
  apply bind_inv in H as [(chunks & w3 & Hch & H)|(e & Hch & _)];
    [|by injection Hch as _ <-].
  injection Hch as _ <-.
  apply bind_inv in H as [([] & w4 & Hwarn & H)|(e & Hwarn & _)]; cycle 1.
  { destruct (_ =? 0) in Hwarn; discriminate. }
  assert (files w4 = t1) as Hw4.
  { destruct (_ =? 0) in Hwarn.
    - by injection Hwarn as <-.
    - by apply print_err_files in Hwarn as (_ & -> & _). }
  rewrite !(bind_step _ _ _ _ _ (read_arg_text_or_file_run _ _)) in H.
  destruct (_ =? 0) in H; [by injection H as _ <-|].
  apply bind_inv in H as [([] & w7 & Hp1 & H)|(e & Hp1 & _)]; [|discriminate].
  apply bind_inv in H as [([] & w8 & Hp2 & H)|(e & Hp2 & _)]; [|discriminate].
  apply print_files in Hp1 as (_ & Hf1 & _). apply print_files in Hp2 as (_ & Hf2 & _).
  apply bind_inv in H as [([] & w9 & Hloop & H)|(e & Hloop & _)].
  - edestruct (create_loop_dry a) as (w9' & Hloop' & Hf9 & _); [exact Hdry|].
    rewrite Hloop' in Hloop. injection Hloop as ->.
    injection H as _ <-. simpl. congruence.
  - edestruct (create_loop_dry a) as (w9' & Hloop' & Hf9 & _); [exact Hdry|].
    rewrite Hloop' in Hloop. discriminate.
Qed.

(** *** Runs that end before the loop *)

Lemma create_config_error_exit (a : Create.args) (w : world) :
  create_config_error a (files w) →
  ∃ w', Create.script a w = (Exit 2, w') ∧
        files w' = files w ∧ stdout w' = stdout w.
Proof.
  intros Herr. unfold Create.script, sys_exit, Create.main, bind, query.
  destruct (FS.is_file (files w) _) eqn:Hfile; simpl.
  - destruct Herr as [?|Hn]; [congruence|].
    destruct (Z.leb_spec (Create.lines_per_geometry a) 0); [|lia].
    eexists. split; [reflexivity|done].
  - eexists. split; [reflexivity|done].
Qed.

Lemma create_zero_chunks_exit (a : Create.args) (w : world) (raw : string) (t1 : FS.tree) :
  FS.read_text (files w) (Path (Create.geometry_list a)) = Ok raw →
  0 < Create.lines_per_geometry a →
  FS.mkdir_parents (files w) (Path (Create.out a)) = Ok t1 →
  Create.chunk_lines (splitlines raw) (Create.lines_per_geometry a) = Ok [] →
  ∃ w', Create.script a w = (Exit 0, w') ∧
        files w' = t1 ∧ stdout w' = stdout w.
Proof.
  intros Hraw Hn Hmk Hch. pose proof (mkdir_parents_frame _ _ _ Hmk) as Hgrow.
  unfold Create.script, sys_exit, Create.main.
  erewrite bind_step by reflexivity.
  rewrite (read_text_is_file _ _ _ Hraw). simpl.
  destruct (Z.leb_spec (Create.lines_per_geometry a) 0); [lia|].
  rewrite !mbind_bind.
  erewrite bind_step by (by apply update_step).
  erewrite bind_step; cycle 1.
  { unfold inspect. simpl.
    rewrite (grown_towards_read _ _ _ _ Hgrow) by (by eapply read_text_is_file).
    by rewrite Hraw. }
  erewrite bind_step by (unfold lift; by rewrite Hch).
  cbv beta zeta. rewrite !mbind_bind.
  destruct (_ =? 0).
  - erewrite bind_step by reflexivity.
    rewrite !(bind_step _ _ _ _ _ (read_arg_text_or_file_run _ _)). simpl.
    eexists. split; [reflexivity|done].
  - erewrite bind_step by reflexivity.
    rewrite !(bind_step _ _ _ _ _ (read_arg_text_or_file_run _ _)). simpl.
    eexists. split; [reflexivity|done].
Qed.

(** *** A numbered directory that is already in use *)

Lemma ensure_dir_occupied (p : path) (w : world) :
  FS.is_dir (files w) p = true → FS.has_entries (files w) p = true →
  Create.ensure_dir p false w
  = (Raise (RuntimeError
              "Directory {path} already exists and is not empty. Use --force to allow reuse." p),
     w).
Proof.
  intros Hd He. unfold Create.ensure_dir, bind, query, raise.
  assert (FS.exists_ (files w) p = true) as ->.
  { unfold FS.exists_, FS.is_dir in *. by destruct (FS.lookup _ _). }
  simpl. rewrite Hd. simpl. by rewrite He.
Qed.

End CreateFacts.

(** ** Facts about the runs of [orca6-batch-prune-create.py] *)

Section PruneFacts.

Context {B : Builtins}.

Lemma parent_file (d : path) (name : string) : FS.parent (d ++ [name]) = d.
Proof. apply removelast_last. Qed.

Lemma prune_write_file_ok (p : path) (content : string) (ex : bool) (w w' : world) :
  PruneCreate.write_file p content ex w = (Ok tt, w') →
  file_content (files w') p = Some content ∧
  (∀ q, q ≠ p → ¬ q `prefix_of` FS.parent p → files w' !! q = files w !! q).
Proof.
  unfold PruneCreate.write_file. rewrite !mbind_bind. intros H.
  apply bind_ok_inv in H as ([] & w0 & Hmk & H).
  apply update_ok_inv in Hmk as (t0 & Hmk & ->).
  pose proof (mkdir_parents_frame _ _ _ Hmk) as Hgrow.
  assert (Create.write_file p content ex (World t0 (stdout w) (stderr w)) = (Ok tt, w')) as Hw
    by exact H.
  apply create_write_file_ok in Hw as [Hc Hf]. split; [done|].
  intros q Hq Hpre. rewrite Hf by done. simpl.
  destruct (Hgrow q) as [?|(_ & _ & ? & _)]; done.
Qed.

Lemma not_prefix_file (d : path) (name : string) : ¬ (d ++ [name]) `prefix_of` d.
Proof.
  intros H. apply prefix_length in H. rewrite length_app in H. simpl in H. lia.
Qed.

Lemma prune_loop_body_ok (chunks : list (list string))
    (orca_text slurm_text cleanup_text : string) (ord_idx geom_idx : Z)
    (w w' : world) (r : option Z) :
  PruneCreate.loop_body chunks orca_text slurm_text cleanup_text ord_idx geom_idx w
  = (Ok r, w') →
  match r with
  | Some code => code = 2 ∧ files w' = files w
  | None =>
      (∃ chunk, getitem chunks geom_idx = Ok chunk ∧
         materialised (files w') [str ord_idx] chunk orca_text slurm_text cleanup_text) ∧
      (∀ q, apart [str ord_idx] q → files w' !! q = files w !! q)
  end.
Proof.
  unfold PruneCreate.loop_body. set (d := [str ord_idx]).
  cbv zeta. intros H.
  assert (∀ w0 : world,
    (let* chunk := lift (getitem chunks geom_idx) in
     PruneCreate.write_file (d ++ ["geometry.xyz"]) (join nl chunk +:+ nl) false;;
     PruneCreate.write_file (d ++ ["orca6.inp"]) orca_text false;;
     PruneCreate.write_file (d ++ ["job.slurm"]) slurm_text false;;
     PruneCreate.write_file (d ++ ["cleanup.sh"]) cleanup_text true;;
     mret None) w0 = (Ok r, w') →
    r = None ∧
    (∃ chunk, getitem chunks geom_idx = Ok chunk ∧
       materialised (files w') d chunk orca_text slurm_text cleanup_text) ∧
    (∀ q, apart d q → files w' !! q = files w0 !! q)) as Hwrites.
  { clear H. intros w0 H.
    apply bind_ok_inv in H as (chunk & w1 & Hget & H). injection Hget as Hget <-.
    rewrite !mbind_bind in H.
    apply bind_ok_inv in H as ([] & w1 & H1 & H).
    apply bind_ok_inv in H as ([] & w2 & H2 & H).
    apply bind_ok_inv in H as ([] & w3 & H3 & H).
    apply bind_ok_inv in H as ([] & w4 & H4 & H).
    injection H as <- <-.
    apply prune_write_file_ok in H1 as [G1 F1].
    apply prune_write_file_ok in H2 as [G2 F2].
    apply prune_write_file_ok in H3 as [G3 F3].
    apply prune_write_file_ok in H4 as [G4 F4].
    rewrite parent_file in F1, F2, F3, F4.
    split; [done|]. split.
    - exists chunk. split; [done|]. repeat split.
      + rewrite <- G1.
        rewrite (file_content_frame (files w3) (files w4))
          by (apply F4; [by apply file_names_differ|apply not_prefix_file]).
        rewrite (file_content_frame (files w2) (files w3))
          by (apply F3; [by apply file_names_differ|apply not_prefix_file]).
        by rewrite (file_content_frame (files w1) (files w2))
          by (apply F2; [by apply file_names_differ|apply not_prefix_file]).
      + rewrite <- G2.
        rewrite (file_content_frame (files w3) (files w4))
          by (apply F4; [by apply file_names_differ|apply not_prefix_file]).
        by rewrite (file_content_frame (files w2) (files w3))
          by (apply F3; [by apply file_names_differ|apply not_prefix_file]).
      + rewrite <- G3.
        by rewrite (file_content_frame (files w3) (files w4))
          by (apply F4; [by apply file_names_differ|apply not_prefix_file]).
      + done.
    - intros q Hq. destruct Hq as [Hq1 Hq2].
      rewrite F4, F3, F2, F1; [done|by apply apart_file|done..|by apply apart_file|done|
                               by apply apart_file|done|by apply apart_file|done]. }
  apply bind_ok_inv in H as (present & w0 & Hq & H). injection Hq as <- <-.
  destruct (FS.exists_ (files w) d && FS.is_dir (files w) d).
  - apply bind_ok_inv in H as (occupied & w0 & Hq & H). injection Hq as <- <-.
    destruct (FS.has_entries (files w) d).
    + rewrite mbind_bind in H. apply bind_ok_inv in H as ([] & w1 & Hp & H).
      apply print_err_files in Hp as (_ & Hf & _). injection H as <- <-. done.
    + apply Hwrites in H as (-> & ? & ?). done.
  - rewrite mbind_bind in H. apply bind_ok_inv in H as ([] & w1 & Hmk & H).
    apply update_ok_inv in Hmk as (t1 & Hmk & ->).
    pose proof (mkdir_parents_frame _ _ _ Hmk) as Hgrow.
    apply Hwrites in H as (-> & ? & Hf). split; [done|].
    intros q Hq. rewrite Hf by done. simpl.
    destruct (Hgrow q) as [?|(_ & _ & ? & _)]; [done|]. by destruct Hq.
Qed.

Lemma prune_loop_ok (chunks : list (list string))
    (orca_text slurm_text cleanup_text : string) :
  ∀ (indices : list Z) (s : Z) (w w' : world) (r : option Z),
  for_each_return (enumerate indices s)
    (λ '(ord_idx, geom_idx),
       PruneCreate.loop_body chunks orca_text slurm_text cleanup_text ord_idx geom_idx) w
  = (Ok r, w') →
  match r with
  | Some code => code = 2
  | None =>
      (∀ (k : nat) g, indices !! k = Some g →
         ∃ chunk, getitem chunks g = Ok chunk ∧
           materialised (files w') [str (s + Z.of_nat k)] chunk
             orca_text slurm_text cleanup_text) ∧
      (∀ q, (∀ k : nat, (k < length indices)%nat → apart [str (s + Z.of_nat k)] q) →
         files w' !! q = files w !! q)
  end.
Proof.
  intros indices. induction indices as [|g0 rest IH]; intros s w w' r H; simpl in H.
  { injection H as <- <-. split; [by intros k g Hk|done]. }
  apply bind_ok_inv in H as (r0 & w1 & Hbody & H).
  apply prune_loop_body_ok in Hbody. destruct r0 as [code|].
  { injection H as <- <-. by destruct Hbody. }
  destruct Hbody as [(chunk0 & Hget0 & Hm0) Hf0].
  apply IH in H. destruct r as [code|]; [done|]. destruct H as [IHm IHf]. split.
  - intros [|k] g Hk; simpl in Hk.
    + injection Hk as <-. rewrite Z.add_0_r. exists chunk0. split; [done|].
      eapply materialised_frame; [|exact Hm0]. intros name. apply IHf.
      intros k Hk. apply (job_dir_apart [] s (s + 1 + Z.of_nat k) name). lia.
    + replace (s + Z.of_nat (S k)) with (s + 1 + Z.of_nat k) by lia. by apply IHm.
  - intros q Hq. rewrite IHf.
    + apply Hf0. specialize (Hq 0%nat). rewrite Z.add_0_r in Hq. apply Hq. simpl. lia.
    + intros k Hk. replace (s + 1 + Z.of_nat k) with (s + Z.of_nat (S k)) by lia.
      apply Hq. simpl. lia.
Qed.

Lemma read_text_or_file_run (value : string) (w : world) :
  PruneCreate.read_text_or_file value w = (Ok (resolved (files w) value), w).
Proof. apply read_arg_text_or_file_run. Qed.

Lemma prune_main_ok (a : PruneCreate.args) (w w' : world) (raw : string) (indices : list Z) :
  PruneCreate.main a w = (Ok 0, w') →
  FS.read_text (files w) (Path (PruneCreate.geometry_list a)) = Ok raw →
  let chunks := PruneCreate.chunk_lines (splitlines raw) (PruneCreate.lines_per_geometry a) in
  PruneCreate.select_indices (len chunks) (PruneCreate.first a) (PruneCreate.prune a)
  = Ok indices →
  ∀ (k : nat) g, indices !! k = Some g →
    ∃ chunk, getitem chunks g = Ok chunk ∧
      materialised (files w') [str (1 + Z.of_nat k)] chunk
        (resolved (files w) (PruneCreate.orca_input a))
        (resolved (files w) (PruneCreate.slurm_input a))
        PruneCreate.build_cleanup_script.
Proof.
  intros H Hraw chunks Hsel k g Hk.
  unfold PruneCreate.main in H.
  apply bind_ok_inv in H as (is_file & w0 & Hq & H). injection Hq as <- <-.
  rewrite (read_text_is_file _ _ _ Hraw) in H. simpl in H.
  destruct (_ <=? 0); [discriminate|].
  destruct (_ <? 0); [discriminate|].
  destruct (match PruneCreate.prune a with Some p => p <=? 0 | None => false end);
    [discriminate|].
  apply bind_ok_inv in H as (raw' & w1 & Hread & H).
  unfold inspect in Hread. rewrite Hraw in Hread. injection Hread as <- <-.
  cbv zeta in H. fold chunks in H.
  destruct (len chunks =? 0) eqn:Hz.
  { apply Z.eqb_eq in Hz. rewrite Hz in Hsel. injection Hsel as <-. done. }
  rewrite mbind_bind in H. apply bind_ok_inv in H as ([] & w2 & Hwarn & H).
  assert (files w2 = files w) as Hw2.
  { destruct (_ =? 0) in Hwarn.
    - by injection Hwarn as <-.
    - by apply print_err_files in Hwarn as (_ & -> & _). }
  rewrite Hsel in H. destruct indices as [|g0 rest]; [done|].
  apply bind_ok_inv in H as (orca_text & w3 & Ho & H).
  rewrite read_text_or_file_run in Ho. injection Ho as <- <-.
  apply bind_ok_inv in H as (slurm_text & w4 & Hs & H).
  rewrite read_text_or_file_run in Hs. injection Hs as <- <-.
  rewrite Hw2 in H.
  apply bind_ok_inv in H as (returned & w5 & Hloop & H).
  apply prune_loop_ok in Hloop. destruct returned as [code|].
  { injection H as -> <-. done. }
  rewrite mbind_bind in H. apply bind_ok_inv in H as ([] & w6 & Hp & H).
  apply print_files in Hp as (_ & Hf & _). injection H as <-.
  rewrite Hf. destruct Hloop as [Hm _]. by apply Hm.
Qed.

(** *** Runs that end before the loop *)

Lemma prune_config_error_exit (a : PruneCreate.args) (w : world) :
  prune_config_error a (files w) →
  ∃ w', PruneCreate.script a w = (Exit 2, w') ∧
        files w' = files w ∧ stdout w' = stdout w.
Proof.
  intros Herr. unfold PruneCreate.script, sys_exit, PruneCreate.main, bind, query.
  destruct (FS.is_file (files w) _) eqn:Hfile; simpl;
    [|eexists; split; [reflexivity|done]].
  destruct (Z.leb_spec (PruneCreate.lines_per_geometry a) 0);
    [eexists; split; [reflexivity|done]|].
  destruct (Z.ltb_spec (PruneCreate.first a) 0);
    [eexists; split; [reflexivity|done]|].
  destruct Herr as [?|[?|[?|(p & Hp & Hle)]]]; [congruence|lia|lia|].
  rewrite Hp. destruct (Z.leb_spec p 0); [|lia].
  eexists. split; [reflexivity|done].
Qed.

Lemma prune_nothing_to_do_exit (a : PruneCreate.args) (w : world) (raw : string) :
  ¬ prune_config_error a (files w) →
  FS.read_text (files w) (Path (PruneCreate.geometry_list a)) = Ok raw →
  let chunks := PruneCreate.chunk_lines (splitlines raw) (PruneCreate.lines_per_geometry a) in
  chunks = [] ∨
  PruneCreate.select_indices (len chunks) (PruneCreate.first a) (PruneCreate.prune a) = Ok [] →
  ∃ w', PruneCreate.script a w = (Exit 0, w') ∧
        files w' = files w ∧ stdout w' = stdout w.
Proof.
  intros Hok Hraw chunks Hempty.
  unfold PruneCreate.script, sys_exit, PruneCreate.main.
  erewrite bind_step by reflexivity.
  rewrite (read_text_is_file _ _ _ Hraw). simpl.
  destruct (Z.leb_spec (PruneCreate.lines_per_geometry a) 0) as [Hn|Hn].
  { destruct Hok. right. by left. }
  destruct (Z.ltb_spec (PruneCreate.first a) 0) as [Hf|Hf].
  { destruct Hok. right. right. by left. }
  assert (match PruneCreate.prune a with Some p => p <=? 0 | None => false end = false) as ->.
  { destruct (PruneCreate.prune a) as [p|] eqn:Hp; [|done].
    destruct (Z.leb_spec p 0); [|done]. destruct Hok. do 3 right. eauto. }
  erewrite bind_step by (unfold inspect; by rewrite Hraw).
  cbv beta zeta. fold chunks.
  destruct (len chunks =? 0) eqn:Hz.
  { eexists. split; [reflexivity|done]. }
  destruct Hempty as [Hnil|Hsel].
  { rewrite Hnil in Hz. done. }
  rewrite mbind_bind. rewrite Hsel.
  destruct (len (splitlines raw) - _ =? 0).
  - erewrite bind_step by reflexivity. eexists. split; [reflexivity|done].
  - erewrite bind_step by reflexivity. eexists. split; [reflexivity|done].
Qed.

(** *** A numbered directory that is already in use *)

Lemma prune_loop_body_occupied (chunks : list (list string))
    (orca_text slurm_text cleanup_text : string) (ord_idx geom_idx : Z) (w : world) :
  FS.is_dir (files w) [str ord_idx] = true →
  FS.has_entries (files w) [str ord_idx] = true →
  PruneCreate.loop_body chunks orca_text slurm_text cleanup_text ord_idx geom_idx w
  = (Ok (Some 2),
     World (files w) (stdout w) (stderr w ++ [ErrDirNotEmpty [str ord_idx]])).
Proof.
  intros Hd He. unfold PruneCreate.loop_body, bind, query. cbv zeta.
  assert (FS.exists_ (files w) [str ord_idx] = true) as ->.
  { unfold FS.exists_, FS.is_dir in *. by destruct (FS.lookup _ _). }
  rewrite Hd. simpl. by rewrite He.
Qed.

End PruneFacts.

(** * The claims *)

Section PureClaims.

Lemma strictly_sorted_NoDup (l : list Z) : StronglySorted Z.lt l → NoDup l.
Proof.
  induction 1 as [|x l Hs IH Hall]; constructor; [|done].
  intros Hin. rewrite Forall_forall in Hall. specialize (Hall _ Hin). lia.
Qed.

Lemma len_nil_inv {A} (l : list A) : len l = 0 → l = [].
Proof. unfold len. destruct l; [done|simpl; lia]. Qed.

End PureClaims.

(** C1.  For every list of lines [L] and every [n > 0], [chunk_lines] of
    either tool returns exactly [len L // n] chunks, each of length [n],
    whose concatenation is the prefix of [L] of length [(len L // n) * n];
    the result is empty for an empty [L] and whenever [len L < n]. *)
Theorem C1_chunk_lines_spec (L : list string) (n : Z) :
  0 < n →
  ∃ cs,
    Create.chunk_lines L n = Ok cs ∧
    PruneCreate.chunk_lines L n = cs ∧
    len cs = len L / n ∧
    Forall (λ c, len c = n) cs ∧
    concat cs = take (Z.to_nat (len L / n * n)) L ∧
    (L = [] → cs = []) ∧
    (len L < n → cs = []).
Proof.
  intros Hn.
  destruct (chunk_lines_unfold_pos L n Hn) as [H1 H2].
  destruct (chunk_lines_shape L n Hn) as (Hlen & Hall & Hcat).
  eexists. split; [exact H1|]. split; [exact H2|].
  split; [exact Hlen|]. split; [exact Hall|]. split; [exact Hcat|]. split.
  - intros ->. apply len_nil_inv. rewrite Hlen. unfold len. simpl. by apply Z.div_0_l, Z.neq_sym, Z.lt_neq.
  - intros Hlt. apply len_nil_inv. rewrite Hlen. apply Z.div_small. unfold len in *. lia.
Qed.

Lemma C1_chunk_lines_spec_witness :
  0 < 2 ∧
  ∃ cs,
    Create.chunk_lines ["a"; "b"; "c"; "d"; "e"]%string 2 = Ok cs ∧
    PruneCreate.chunk_lines ["a"; "b"; "c"; "d"; "e"]%string 2 = cs ∧
    len cs = len ["a"; "b"; "c"; "d"; "e"]%string / 2 ∧
    Forall (λ c, len c = 2) cs ∧
    concat cs = take (Z.to_nat (len ["a"; "b"; "c"; "d"; "e"]%string / 2 * 2))
                  ["a"; "b"; "c"; "d"; "e"]%string ∧
    (["a"; "b"; "c"; "d"; "e"]%string = [] → cs = []) ∧
    (len ["a"; "b"; "c"; "d"; "e"]%string < 2 → cs = []).
Proof. split; [lia|]. apply C1_chunk_lines_spec. lia. Defined.

(** C2.  For [total >= 0] and a positive denominator [P], [select_indices]
    returns the clamped prefix followed by the stride sample
    [first, first+P, first+2P, ...] below [total], where
    [first = clamp(first_count, 0, total)]; the sample is empty when
    [first_count >= total]; [select(10, 2, 3) = [0, 1, 2, 5, 8]] and
    [select(10, 0, 3) = [0, 3, 6, 9]]. *)
Theorem C2_select_indices_stride (total first_count P : Z) :
  0 ≤ total → 0 < P →
  let first := Spec.clamp first_count 0 total in
  PruneCreate.select_indices total first_count (Some P)
  = Ok (Spec.select total first_count P) ∧
  (∀ x, x ∈ Spec.select total first_count P ↔
        0 ≤ x < first ∨ ∃ k, 0 ≤ k ∧ x = first + k * P ∧ x < total) ∧
  (total ≤ first_count → Spec.stride_sample first P total = []) ∧
  PruneCreate.select_indices 10 2 (Some 3) = Ok [0; 1; 2; 5; 8] ∧
  PruneCreate.select_indices 10 0 (Some 3) = Ok [0; 3; 6; 9].
Proof.
  intros Ht HP first. split; [|split; [|split]].
  - rewrite select_indices_value by done. by rewrite spec_select_selection.
  - intros x. unfold Spec.select. fold first. rewrite elem_of_app.
    rewrite elem_of_stride_sample by done. unfold Spec.prefix.
    rewrite elem_of_seqZ. split; (intros [?|?]; [left; lia|by right]).
  - intros Hge. rewrite stride_sample_range3 by done.
    rewrite range3_nil; [done|done|]. unfold first, Spec.clamp. lia.
  - split; vm_compute; reflexivity.
Qed.

Lemma C2_select_indices_stride_witness :
  0 ≤ 7 ∧ 0 < 2 ∧
  PruneCreate.select_indices 7 3 (Some 2) = Ok (Spec.select 7 3 2).
Proof.
  split; [lia|]. split; [lia|].
  apply (C2_select_indices_stride 7 3 2); lia.
Defined.

(** C3.  For [total >= 0] and no denominator, [select_indices] returns the
    range [[0, clamp(first_count, 0, total))]: nothing outside the clamped
    prefix is selected. *)
Theorem C3_select_indices_no_prune (total first_count : Z) :
  0 ≤ total →
  PruneCreate.select_indices total first_count None
  = Ok (seqZ 0 (Spec.clamp first_count 0 total)) ∧
  ∀ l, PruneCreate.select_indices total first_count None = Ok l →
       ∀ x, x ∈ l ↔ 0 ≤ x < Spec.clamp first_count 0 total.
Proof.
  intros Ht.
  assert (PruneCreate.select_indices total first_count None
          = Ok (seqZ 0 (Spec.clamp first_count 0 total))) as Hsel.
  { by rewrite select_indices_value. }
  split; [done|]. intros l Hl x. rewrite Hsel in Hl. injection Hl as <-.
  rewrite elem_of_seqZ. lia.
Qed.

Lemma C3_select_indices_no_prune_witness :
  0 ≤ 4 ∧ PruneCreate.select_indices 4 9 None = Ok (seqZ 0 (Spec.clamp 9 0 4)).
Proof. split; [lia|]. apply (C3_select_indices_no_prune 4 9). lia. Defined.

(** C4.  On valid input ([total >= 0], denominator absent or positive)
    [select_indices] returns a list, the same one at every call, that is
    strictly increasing (so sorted and free of duplicates) and whose
    elements all lie in [[0, total)]. *)
Theorem C4_select_indices_invariants (total first_count : Z) (prune_den : option Z) :
  0 ≤ total → valid_prune prune_den →
  ∃ l,
    PruneCreate.select_indices total first_count prune_den = Ok l ∧
    (∀ r, PruneCreate.select_indices total first_count prune_den = r → r = Ok l) ∧
    StronglySorted Z.lt l ∧
    NoDup l ∧
    Forall (λ x, 0 ≤ x < total) l.
Proof.
  intros Ht Hv. exists (selection total first_count prune_den).
  pose proof (select_indices_value total first_count prune_den Ht Hv) as Hsel.
  pose proof (selection_sorted total first_count prune_den Hv) as Hs.
  split; [done|]. split; [by intros r <-|]. split; [done|].
  split; [by apply strictly_sorted_NoDup|]. by apply selection_bounds.
Qed.

Lemma C4_select_indices_invariants_witness :
  0 ≤ 10 ∧ valid_prune (Some 3) ∧
  ∃ l,
    PruneCreate.select_indices 10 2 (Some 3) = Ok l ∧
    (∀ r, PruneCreate.select_indices 10 2 (Some 3) = r → r = Ok l) ∧
    StronglySorted Z.lt l ∧
    NoDup l ∧
    Forall (λ x, 0 ≤ x < 10) l.
Proof.
  split; [lia|]. split; [simpl; lia|].
  apply (C4_select_indices_invariants 10 2 (Some 3)); simpl; lia.
Defined.

(** C10.  For [n >= 1] the [chunk_lines] of the two tools return the same
    chunks.  They differ only out of contract: tool 2 returns the empty
    list for every [n <= 0]; tool 1 does not guard its division and raises
    [ZeroDivisionError] at [n = 0] (at a negative [n] its range is
    empty). *)
Theorem C10_chunk_lines_tools_agree (L : list string) (n : Z) :
  (1 ≤ n → Create.chunk_lines L n = Ok (PruneCreate.chunk_lines L n)) ∧
  (n ≤ 0 → PruneCreate.chunk_lines L n = []) ∧
  (n = 0 → Create.chunk_lines L n = Raise ZeroDivisionError) ∧
  (n < 0 → Create.chunk_lines L n = Ok []).
Proof.
  split; [|split; [|split]].
  - intros Hn. destruct (chunk_lines_unfold_pos L n) as [H1 H2]; [lia|].
    by rewrite H1, H2.
  - intros Hn. unfold PruneCreate.chunk_lines. by destruct (Z.leb_spec n 0); [|lia].
  - by intros ->.
  - apply create_chunk_lines_neg.
Qed.

Lemma C10_chunk_lines_tools_agree_witness :
  Create.chunk_lines ["a"; "b"; "c"]%string 2
  = Ok (PruneCreate.chunk_lines ["a"; "b"; "c"]%string 2) ∧
  PruneCreate.chunk_lines ["a"; "b"; "c"]%string 0 = [] ∧
  Create.chunk_lines ["a"; "b"; "c"]%string 0 = Raise ZeroDivisionError ∧
  Create.chunk_lines ["a"; "b"; "c"]%string (-2) = Ok [].
Proof.
  split; [|split; [|split]].
  - apply (proj1 (C10_chunk_lines_tools_agree ["a"; "b"; "c"]%string 2)). lia.
  - apply (proj1 (proj2 (C10_chunk_lines_tools_agree ["a"; "b"; "c"]%string 0))). lia.
  - apply (proj1 (proj2 (proj2 (C10_chunk_lines_tools_agree ["a"; "b"; "c"]%string 0)))).
    reflexivity.
  - apply (proj2 (proj2 (proj2 (C10_chunk_lines_tools_agree ["a"; "b"; "c"]%string (-2))))).
    lia.
Defined.

Lemma differ_by_length (s1 s2 : string) :
  Nat.eqb (String.length s1) (String.length s2) = false → s1 ≠ s2.
Proof. intros H ->. by rewrite Nat.eqb_refl in H. Qed.

(** C5.  In a run that completes, every selected chunk has its lines,
    joined by line feeds and closed by one line feed, in [geometry.xyz] of
    its directory, and [orca6.inp] and [job.slurm] there hold the resolved
    template texts, unchanged and the same in every directory.  Tool 1
    numbers the directories by chunk, tool 2 by position in the
    selection. *)
Theorem C5_artifacts_written {B : Builtins} :
  (∀ (a : Create.args) (w w' : world) (code : Z) (raw : string)
     (chunks : list (list string)),
     Create.script a w = (Exit code, w') →
     Create.dry_run a = false →
     FS.read_text (files w) (Path (Create.geometry_list a)) = Ok raw →
     Create.chunk_lines (splitlines raw) (Create.lines_per_geometry a) = Ok chunks →
     ∀ (k : nat) (chunk : list string), chunks !! k = Some chunk →
       let d := job_dir (Path (Create.out a)) (1 + Z.of_nat k) in
       file_content (files w') (d ++ ["geometry.xyz"]) = Some (join nl chunk +:+ nl) ∧
       file_content (files w') (d ++ ["orca6.inp"])
       = Some (resolved (files w) (Create.orca_input a)) ∧
       file_content (files w') (d ++ ["job.slurm"])
       = Some (resolved (files w) (Create.slurm_input a))) ∧
  (∀ (a : PruneCreate.args) (w w' : world) (raw : string) (indices : list Z),
     PruneCreate.script a w = (Exit 0, w') →
     FS.read_text (files w) (Path (PruneCreate.geometry_list a)) = Ok raw →
     let chunks :=
       PruneCreate.chunk_lines (splitlines raw) (PruneCreate.lines_per_geometry a) in
     PruneCreate.select_indices (len chunks) (PruneCreate.first a) (PruneCreate.prune a)
     = Ok indices →
     ∀ (k : nat) (geom_idx : Z), indices !! k = Some geom_idx →
       ∃ chunk, getitem chunks geom_idx = Ok chunk ∧
         let d := [str (1 + Z.of_nat k)] in
         file_content (files w') (d ++ ["geometry.xyz"]) = Some (join nl chunk +:+ nl) ∧
         file_content (files w') (d ++ ["orca6.inp"])
         = Some (resolved (files w) (PruneCreate.orca_input a)) ∧
         file_content (files w') (d ++ ["job.slurm"])
         = Some (resolved (files w) (PruneCreate.slurm_input a))).
Proof.
  split.
  - intros a w w' code raw chunks Hrun Hdry Hraw Hch k chunk Hk.
    unfold Create.script, sys_exit in Hrun.
    destruct (Create.main a w) as [[c|e] w1] eqn:Hmain; [|discriminate].
    injection Hrun as -> ->.
    destruct (create_main_ok a w w' code raw chunks Hmain Hdry Hraw Hch k chunk Hk)
      as (H1 & H2 & H3 & _).
    done.
  - intros a w w' raw indices Hrun Hraw chunks Hsel k g Hk.
    unfold PruneCreate.script, sys_exit in Hrun.
    destruct (PruneCreate.main a w) as [[c|e] w1] eqn:Hmain; [|discriminate].
    injection Hrun as -> ->.
    destruct (prune_main_ok a w w' raw indices Hmain Hraw Hsel k g Hk)
      as (chunk & Hget & H1 & H2 & H3 & _).
    exists chunk. done.
Qed.

Lemma C5_artifacts_written_witness :
  let B := Posix.runtime in
  let a := Demo.create_args false false in
  let d := job_dir (Path (Create.out a)) (1 + Z.of_nat 1) in
  file_content (files Demo.world1) (d ++ ["geometry.xyz"])
  = Some (join nl ["2"; "H 0 0 1"] +:+ nl) ∧
  file_content (files Demo.world1) (d ++ ["orca6.inp"])
  = Some (resolved (files Demo.world0) (Create.orca_input a)) ∧
  file_content (files Demo.world1) (d ++ ["job.slurm"])
  = Some (resolved (files Demo.world0) (Create.slurm_input a)).
Proof.
  intros B a d.
  apply (proj1 (@C5_artifacts_written Posix.runtime) a Demo.world0 Demo.world1 0
           Demo.geometry [["2"; "H 0 0 0"]; ["2"; "H 0 0 1"]]%string);
    vm_compute; reflexivity.
Defined.

(** C6, amended.  The [cleanup.sh] written into every directory of a
    completed run is the fixed script text of the tool that ran.  That
    text is not the one printed in section 6 of the specification, and the
    two tools do not share it: the three agree as shell commands, that is
    word for word once comment lines are dropped. *)
Theorem C6_cleanup_script_amended {B : Builtins} :
  (∀ (a : Create.args) (w w' : world) (code : Z) (raw : string)
     (chunks : list (list string)),
     Create.script a w = (Exit code, w') →
     Create.dry_run a = false →
     FS.read_text (files w) (Path (Create.geometry_list a)) = Ok raw →
     Create.chunk_lines (splitlines raw) (Create.lines_per_geometry a) = Ok chunks →
     ∀ (k : nat) (chunk : list string), chunks !! k = Some chunk →
       file_content (files w')
         (job_dir (Path (Create.out a)) (1 + Z.of_nat k) ++ ["cleanup.sh"])
       = Some Create.build_cleanup_script) ∧
  (∀ (a : PruneCreate.args) (w w' : world) (raw : string) (indices : list Z),
     PruneCreate.script a w = (Exit 0, w') →
     FS.read_text (files w) (Path (PruneCreate.geometry_list a)) = Ok raw →
     PruneCreate.select_indices
       (len (PruneCreate.chunk_lines (splitlines raw) (PruneCreate.lines_per_geometry a)))
       (PruneCreate.first a) (PruneCreate.prune a)
     = Ok indices →
     ∀ (k : nat) (geom_idx : Z), indices !! k = Some geom_idx →
       file_content (files w') ([str (1 + Z.of_nat k)] ++ ["cleanup.sh"])
       = Some PruneCreate.build_cleanup_script) ∧
  Shell.command_words Create.build_cleanup_script
  = Shell.command_words Spec.cleanup_script ∧
  Shell.command_words PruneCreate.build_cleanup_script
  = Shell.command_words Spec.cleanup_script.
Proof.
  split; [|split; [|split; vm_compute; reflexivity]].
  - intros a w w' code raw chunks Hrun Hdry Hraw Hch k chunk Hk.
    unfold Create.script, sys_exit in Hrun.
    destruct (Create.main a w) as [[c|e] w1] eqn:Hmain; [|discriminate].
    injection Hrun as -> ->.
    by destruct (create_main_ok a w w' code raw chunks Hmain Hdry Hraw Hch k chunk Hk)
      as (_ & _ & _ & H4).
  - intros a w w' raw indices Hrun Hraw Hsel k g Hk.
    unfold PruneCreate.script, sys_exit in Hrun.
    destruct (PruneCreate.main a w) as [[c|e] w1] eqn:Hmain; [|discriminate].
    injection Hrun as -> ->.
    by destruct (prune_main_ok a w w' raw indices Hmain Hraw Hsel k g Hk)
      as (chunk & _ & _ & _ & _ & H4).
Qed.

Lemma C6_cleanup_script_amended_witness :
  let B := Posix.runtime in
  file_content (files Demo.world1)
    (job_dir (Path (Create.out (Demo.create_args false false))) (1 + Z.of_nat 0)
     ++ ["cleanup.sh"])
  = Some Create.build_cleanup_script ∧
  file_content (files Demo.world2) ([str (1 + Z.of_nat 0)] ++ ["cleanup.sh"])
  = Some PruneCreate.build_cleanup_script.
Proof.
  intros B. split.
  - eapply (proj1 (@C6_cleanup_script_amended Posix.runtime)
              (Demo.create_args false false) Demo.world0 Demo.world1 0
              Demo.geometry [["2"; "H 0 0 0"]; ["2"; "H 0 0 1"]]%string);
      [vm_compute; reflexivity..|reflexivity].
  - eapply (proj1 (proj2 (@C6_cleanup_script_amended Posix.runtime))
              Demo.prune_args Demo.world0 Demo.world2 Demo.geometry [0; 1]);
      [vm_compute; reflexivity..|reflexivity].
Defined.

(** C6 as stated fails: after a real run of each tool the [cleanup.sh] of
    directory 1 holds a text that is not the text of the specification
    (with or without a final line feed), and the texts of the two tools
    differ. *)
Lemma C6_cleanup_text_counterexample :
  file_content (files Demo.world1) ["batch"; "1"; "cleanup.sh"]
  = Some Create.build_cleanup_script ∧
  file_content (files Demo.world2) ["1"; "cleanup.sh"]
  = Some PruneCreate.build_cleanup_script ∧
  Create.build_cleanup_script ≠ Spec.cleanup_script ∧
  Create.build_cleanup_script ≠ Spec.cleanup_script +:+ nl ∧
  PruneCreate.build_cleanup_script ≠ Spec.cleanup_script ∧
  PruneCreate.build_cleanup_script ≠ Spec.cleanup_script +:+ nl ∧
  Create.build_cleanup_script ≠ PruneCreate.build_cleanup_script.
Proof.
  split; [vm_compute; reflexivity|]. split; [vm_compute; reflexivity|].
  repeat split; apply differ_by_length; vm_compute; reflexivity.
Qed.

(** C7.  What the code does at [--dry-run -o batch] when [batch] does not
    exist yet: the run passes validation, prints its plan, exits with code
    0, and has created the directory [batch]: [out_root.mkdir] comes
    before the first test of [--dry-run].  No file is written. *)
Theorem C7_dry_run_creates_output_root :
  ∃ w',
    Demo.create (Demo.create_args false true) Demo.world0 = (Exit 0, w') ∧
    FS.lookup (files Demo.world0) ["batch"] = None ∧
    FS.lookup (files w') ["batch"] = Some FS.Dir ∧
    files w' ≠ files Demo.world0 ∧
    (∀ q, file_content (files w') q = file_content (files Demo.world0) q).
Proof.
  exists (Demo.create (Demo.create_args false true) Demo.world0).2.
  assert (FS.lookup (files Demo.world0) ["batch"] = None) as H0
    by (vm_compute; reflexivity).
  assert (FS.lookup (files (Demo.create (Demo.create_args false true) Demo.world0).2)
            ["batch"] = Some FS.Dir) as H1
    by (vm_compute; reflexivity).
  split; [vm_compute; reflexivity|]. split; [exact H0|]. split; [exact H1|]. split.
  - intros Heq. rewrite Heq, H0 in H1. discriminate H1.
  - destruct (Demo.create (Demo.create_args false true) Demo.world0) as [r w'] eqn:Hrun.
    unfold Demo.create, Create.script, sys_exit in Hrun.
    destruct (Create.main _ _) as [r' w''] eqn:Hmain.
    assert (w'' = w') as -> by (destruct r'; congruence). simpl.
    destruct (create_main_dry (Demo.create_args false true) _ _ _ eq_refl Hmain)
      as [Heq|Hmk]; [intros q; by rewrite Heq|].
    apply grown_towards_content with (p := @Path Posix.runtime "batch").
    by apply mkdir_parents_frame.
Qed.

(** C8, amended.  A configuration error (geometry list missing, [-n] not
    positive, and for tool 2 a negative [-first] or a [-prune] that is
    given and not positive) makes either tool exit with code 2 and the
    file system as it was.  With no chunk, or for tool 2 with an empty
    selection, either tool exits with code 0; tool 2 leaves the file
    system as it was; tool 1 has written no file and created no numbered
    directory: the only paths that can differ are directories created on
    the way to the output root. *)
Theorem C8_early_exits_amended {B : Builtins} :
  (∀ (a : Create.args) (w : world),
     create_config_error a (files w) →
     ∃ w', Create.script a w = (Exit 2, w') ∧ files w' = files w) ∧
  (∀ (a : PruneCreate.args) (w : world),
     prune_config_error a (files w) →
     ∃ w', PruneCreate.script a w = (Exit 2, w') ∧ files w' = files w) ∧
  (∀ (a : Create.args) (w : world) (raw : string) (t1 : FS.tree),
     ¬ create_config_error a (files w) →
     FS.read_text (files w) (Path (Create.geometry_list a)) = Ok raw →
     FS.mkdir_parents (files w) (Path (Create.out a)) = Ok t1 →
     Create.chunk_lines (splitlines raw) (Create.lines_per_geometry a) = Ok [] →
     ∃ w', Create.script a w = (Exit 0, w') ∧
           (∀ q, grown_towards (Path (Create.out a)) (files w) (files w') q) ∧
           (∀ q, file_content (files w') q = file_content (files w) q)) ∧
  (∀ (a : PruneCreate.args) (w : world) (raw : string),
     ¬ prune_config_error a (files w) →
     FS.read_text (files w) (Path (PruneCreate.geometry_list a)) = Ok raw →
     let chunks :=
       PruneCreate.chunk_lines (splitlines raw) (PruneCreate.lines_per_geometry a) in
     chunks = [] ∨
     PruneCreate.select_indices (len chunks) (PruneCreate.first a) (PruneCreate.prune a)
     = Ok [] →
     ∃ w', PruneCreate.script a w = (Exit 0, w') ∧ files w' = files w).
Proof.
  split; [|split; [|split]].
  - intros a w Herr. destruct (create_config_error_exit a w Herr) as (w' & ? & ? & _).
    eauto.
  - intros a w Herr. destruct (prune_config_error_exit a w Herr) as (w' & ? & ? & _).
    eauto.
  - intros a w raw t1 Hok Hraw Hmk Hch.
    assert (0 < Create.lines_per_geometry a) as Hn.
    { destruct (Z.lt_ge_cases 0 (Create.lines_per_geometry a)); [done|].
      destruct Hok. right. lia. }
    destruct (create_zero_chunks_exit a w raw t1 Hraw Hn Hmk Hch) as (w' & Hrun & Hf & _).
    exists w'. split; [done|]. rewrite Hf.
    pose proof (mkdir_parents_frame _ _ _ Hmk) as Hgrow. split; [done|].
    by apply grown_towards_content with (p := Path (Create.out a)).
  - intros a w raw Hok Hraw chunks Hempty.
    destruct (prune_nothing_to_do_exit a w raw Hok Hraw Hempty) as (w' & ? & ? & _).
    eauto.
Qed.

Lemma C8_early_exits_amended_witness :
  (∃ w', Demo.create (Create.Args "missing.xyz" 2 "! HF" "#SBATCH -n 1" "batch" false false)
           Demo.world0 = (Exit 2, w') ∧ files w' = files Demo.world0) ∧
  (∃ w', Demo.prune_create
           (PruneCreate.Args "ensemble.xyz" 2 "! HF" "#SBATCH -n 1" 1 (Some 0))
           Demo.world0 = (Exit 2, w') ∧ files w' = files Demo.world0) ∧
  (∃ w', Demo.create (Demo.create_args false false) Demo.empty_world = (Exit 0, w') ∧
         (∀ q, grown_towards ["batch"] (files Demo.empty_world) (files w') q) ∧
         (∀ q, file_content (files w') q = file_content (files Demo.empty_world) q)) ∧
  (∃ w', Demo.prune_create
           (PruneCreate.Args "ensemble.xyz" 2 "! HF" "#SBATCH -n 1" 0 None)
           Demo.world0 = (Exit 0, w') ∧ files w' = files Demo.world0).
Proof.
  split; [|split; [|split]].
  - apply (proj1 (@C8_early_exits_amended Posix.runtime)). left.
    vm_compute. reflexivity.
  - apply (proj1 (proj2 (@C8_early_exits_amended Posix.runtime))).
    do 3 right. exists 0. split; [reflexivity|lia].
  - apply (proj1 (proj2 (proj2 (@C8_early_exits_amended Posix.runtime)))
             (Demo.create_args false false) Demo.empty_world EmptyString
             (<[ ["batch"] := FS.Dir ]> Demo.empty_tree)).
    + intros [H|H]; [revert H; vm_compute; discriminate|revert H; simpl; lia].
    + vm_compute. reflexivity.
    + vm_compute. reflexivity.
    + vm_compute. reflexivity.
  - apply (proj2 (proj2 (proj2 (@C8_early_exits_amended Posix.runtime)))
             (PruneCreate.Args "ensemble.xyz" 2 "! HF" "#SBATCH -n 1" 0 None)
             Demo.world0 Demo.geometry).
    + intros [H|[H|[H|(p & H & _)]]];
        [revert H; vm_compute; discriminate|revert H; simpl; lia|
         revert H; simpl; lia|revert H; simpl; discriminate].
    + vm_compute. reflexivity.
    + right. vm_compute. reflexivity.
Defined.

(** C8 as stated fails for tool 1: with an empty geometry list there is no
    chunk, the exit code is 0, and yet the output root [batch], absent
    before, has been created. *)
Lemma C8_zero_chunks_counterexample :
  Create.chunk_lines (Posix.split_lines EmptyString) 2 = Ok [] ∧
  ∃ w',
    Demo.create (Demo.create_args false false) Demo.empty_world = (Exit 0, w') ∧
    FS.lookup (files Demo.empty_world) ["batch"] = None ∧
    FS.lookup (files w') ["batch"] = Some FS.Dir ∧
    files w' ≠ files Demo.empty_world.
Proof.
  split; [vm_compute; reflexivity|].
  exists (Demo.create (Demo.create_args false false) Demo.empty_world).2.
  assert (FS.lookup (files Demo.empty_world) ["batch"] = None) as H0
    by (vm_compute; reflexivity).
  assert (FS.lookup (files (Demo.create (Demo.create_args false false) Demo.empty_world).2)
            ["batch"] = Some FS.Dir) as H1
    by (vm_compute; reflexivity).
  split; [vm_compute; reflexivity|]. split; [exact H0|]. split; [exact H1|].
  intros Heq. rewrite Heq, H0 in H1. discriminate H1.
Qed.

(** C9.  What the code does when directory 1 is in use.  Tool 1 without
    [--force]: [ensure_dir] raises [RuntimeError], nothing in [main]
    catches it, and the interpreter ends with a traceback and exit status
    1, not 2; the file system is as it was.  Tool 2 in the same situation
    prints its diagnostic and returns 2.  Tool 1 with [--force] runs to
    the end with code 0. *)
Theorem C9_reuse_without_force_traceback :
  FS.is_dir (files Demo.world1) ["batch"; "1"] = true ∧
  FS.has_entries (files Demo.world1) ["batch"; "1"] = true ∧
  (Demo.create (Demo.create_args false false) Demo.world1).1
  = Traceback
      (RuntimeError
         "Directory {path} already exists and is not empty. Use --force to allow reuse."
         ["batch"; "1"]) ∧
  exit_status (Demo.create (Demo.create_args false false) Demo.world1).1 = 1 ∧
  files (Demo.create (Demo.create_args false false) Demo.world1).2 = files Demo.world1 ∧
  (Demo.prune_create Demo.prune_args Demo.world2).1 = Exit 2 ∧
  files (Demo.prune_create Demo.prune_args Demo.world2).2 = files Demo.world2 ∧
  stderr (Demo.prune_create Demo.prune_args Demo.world2).2
  = stderr Demo.world2 ++ [WarnIgnoring 1; ErrDirNotEmpty ["1"]] ∧
  (Demo.create (Demo.create_args true false) Demo.world1).1 = Exit 0.
Proof.
  repeat split; vm_compute; reflexivity.
Qed.
